(** * A shallow embedding of the 2025 tax estimator of [script.js]

    The script computes an ordinary-income bracket breakdown
    ([calcOrdinaryTax]), a long-term capital gains breakdown
    ([calcLtcgTax]) and the figures derived from the six entry fields of
    the page ([calculate]).

    Numbers.  A JavaScript number is modelled by [jsnum]: a finite value,
    [Infinity], [-Infinity] or [NaN].  Finite values are rationals and the
    arithmetic on them is exact: binary64 rounding, overflow and the sign
    of zero are outside the model.  Everything else about the operators
    the script uses ([+], [-], [*], [<], [>=], [Math.min], [Math.max],
    [Math.round], [Number.isFinite]) is written out, including what they
    do on the three non-finite values, because the bracket table contains
    [Infinity] and the input helper [n] tests for finiteness.

    Rendering ([fmt.format], the table rows written into the page, the
    colour of the refund figure) is not modelled; the values that are
    rendered are. *)

From Stdlib Require Import QArith Qminmax Qround Qabs Lqa.
From Stdlib Require Import List String Bool.
Import ListNotations.

Local Open Scope string_scope.
Local Open Scope list_scope.
Local Open Scope Q_scope.

(** ** Numbers *)

Inductive jsnum : Type :=
| Fin (q : Q)
| PInf
| NInf
| NaN.

Declare Scope js_scope.
Delimit Scope js_scope with js.
Bind Scope js_scope with jsnum.

Module Js.

(** Sign of a finite value, used by the product with an infinity. *)
Definition sgn (q : Q) : comparison := q ?= 0.

Definition neg (a : jsnum) : jsnum :=
  match a with
  | Fin x => Fin (- x)
  | PInf => NInf
  | NInf => PInf
  | NaN => NaN
  end.

Definition add (a b : jsnum) : jsnum :=
  match a, b with
  | NaN, _ | _, NaN => NaN
  | Fin x, Fin y => Fin (x + y)
  | PInf, NInf | NInf, PInf => NaN
  | PInf, _ | _, PInf => PInf
  | NInf, _ | _, NInf => NInf
  end.

Definition sub (a b : jsnum) : jsnum :=
  match a, b with
  | NaN, _ | _, NaN => NaN
  | Fin x, Fin y => Fin (x - y)
  | PInf, PInf | NInf, NInf => NaN
  | PInf, _ | _, NInf => PInf
  | NInf, _ | _, PInf => NInf
  end.

Definition scale_inf (pos : bool) (q : Q) : jsnum :=
  match sgn q with
  | Eq => NaN
  | Gt => if pos then PInf else NInf
  | Lt => if pos then NInf else PInf
  end.

Definition mul (a b : jsnum) : jsnum :=
  match a, b with
  | NaN, _ | _, NaN => NaN
  | Fin x, Fin y => Fin (x * y)
  | PInf, Fin q | Fin q, PInf => scale_inf true q
  | NInf, Fin q | Fin q, NInf => scale_inf false q
  | PInf, PInf | NInf, NInf => PInf
  | PInf, NInf | NInf, PInf => NInf
  end.

(** The relational operators [a < b] and [a >= b]; both are false as
    soon as one side is [NaN]. *)
Definition lt (a b : jsnum) : bool :=
  match a, b with
  | NaN, _ | _, NaN => false
  | Fin x, Fin y => match x ?= y with Lt => true | _ => false end
  | PInf, _ => false
  | _, NInf => false
  | Fin _, PInf => true
  | NInf, _ => true
  end.

Definition ge (a b : jsnum) : bool :=
  match a, b with
  | NaN, _ | _, NaN => false
  | _, _ => negb (lt a b)
  end.

Definition le (a b : jsnum) : bool :=
  match a, b with
  | NaN, _ | _, NaN => false
  | _, _ => negb (lt b a)
  end.

End Js.

Infix "+" := Js.add : js_scope.
Infix "-" := Js.sub : js_scope.
Infix "*" := Js.mul : js_scope.
Infix "<" := Js.lt : js_scope.
Infix ">=" := Js.ge : js_scope.
Infix "<=" := Js.le : js_scope.

Module Math.

Definition max (a b : jsnum) : jsnum :=
  match a, b with
  | NaN, _ | _, NaN => NaN
  | PInf, _ | _, PInf => PInf
  | NInf, c | c, NInf => c
  | Fin x, Fin y => Fin (Qmax x y)
  end.

Definition min (a b : jsnum) : jsnum :=
  match a, b with
  | NaN, _ | _, NaN => NaN
  | NInf, _ | _, NInf => NInf
  | PInf, c | c, PInf => c
  | Fin x, Fin y => Fin (Qmin x y)
  end.

(** [Math.round] rounds to the nearest integer, halves upwards. *)
Definition round (a : jsnum) : jsnum :=
  match a with
  | Fin x => Fin (inject_Z (Qfloor (x + (1 # 2))))
  | _ => a
  end.

End Math.

Definition Number_isFinite (a : jsnum) : bool :=
  match a with
  | Fin _ => true
  | _ => false
  end.

(** Two numbers are the same value. *)
Definition jeq (a b : jsnum) : Prop :=
  match a, b with
  | Fin x, Fin y => x == y
  | PInf, PInf | NInf, NInf | NaN, NaN => True
  | _, _ => False
  end.

Infix "=j=" := jeq (at level 70, no associativity).

(** ** Configuration tables

    An object literal used as a table is an association list of its own
    keys; a key bound to [null] is bound to [None]. *)

Fixpoint get {A : Type} (key : string) (obj : list (string * A)) : option A :=
  match obj with
  | [] => None
  | (k, v) :: rest => if String.eqb k key then Some v else get key rest
  end.

(** The four filing statuses the tables are keyed by, and the key of each
    (the value of the page's status selector). *)
Inductive FilingStatus : Type := Single | Mfj | Hoh | Mfs.

Definition key (s : FilingStatus) : string :=
  match s with
  | Single => "single"
  | Mfj => "mfj"
  | Hoh => "hoh"
  | Mfs => "mfs"
  end.

Definition single_deduction : jsnum := Fin 15750.

Definition STD_DEDUCTION_2025 : list (string * jsnum) :=
  [ ("single", single_deduction);
    ("mfs", Fin 15750);
    ("mfj", Fin 31500);
    ("hoh", Fin 23625) ].

Module Bracket.
Record t : Type := { rate : jsnum; from : jsnum; to : jsnum }.
End Bracket.

Definition single_brackets : list Bracket.t :=
  [ {| Bracket.rate := Fin 0.10; Bracket.from := Fin 0;      Bracket.to := Fin 11925 |};
    {| Bracket.rate := Fin 0.12; Bracket.from := Fin 11925;  Bracket.to := Fin 48475 |};
    {| Bracket.rate := Fin 0.22; Bracket.from := Fin 48475;  Bracket.to := Fin 103350 |};
    {| Bracket.rate := Fin 0.24; Bracket.from := Fin 103350; Bracket.to := Fin 197300 |};
    {| Bracket.rate := Fin 0.32; Bracket.from := Fin 197300; Bracket.to := Fin 250525 |};
    {| Bracket.rate := Fin 0.35; Bracket.from := Fin 250525; Bracket.to := Fin 626350 |};
    {| Bracket.rate := Fin 0.37; Bracket.from := Fin 626350; Bracket.to := PInf |} ].

Definition ORDINARY_BRACKETS_2025 : list (string * option (list Bracket.t)) :=
  [ ("single", Some single_brackets);
    ("mfj", None);
    ("hoh", None);
    ("mfs", None) ].

Module Thresholds.
Record t : Type := { r0_to : jsnum; r15_to : jsnum }.
End Thresholds.

Definition single_ltcg : Thresholds.t :=
  {| Thresholds.r0_to := Fin 48350; Thresholds.r15_to := Fin 533400 |}.

Definition LTCG_2025 : list (string * Thresholds.t) :=
  [ ("single", single_ltcg);
    ("mfj", {| Thresholds.r0_to := Fin 96700; Thresholds.r15_to := Fin 600050 |});
    ("hoh", {| Thresholds.r0_to := Fin 64750; Thresholds.r15_to := Fin 566700 |});
    ("mfs", {| Thresholds.r0_to := Fin 48350; Thresholds.r15_to := Fin 300000 |}) ].

(** ** Results *)

Module OrdRow.
(** [label] is the rounded percentage; the page shows it followed by a
    percent sign. *)
Record t : Type :=
  { label : jsnum; taxedAmount : jsnum; rate : jsnum; tax : jsnum }.
End OrdRow.

Module LtcgRow.
Record t : Type := { rate : jsnum; amount : jsnum; tax : jsnum }.
End LtcgRow.

Module Result.
Record t (R : Type) : Type := { tax : jsnum; rows : list R }.
Arguments tax {R} _.
Arguments rows {R} _.
End Result.

(** ** The two computations *)

Definition clampNonNeg (v : jsnum) : jsnum := Math.max v (Fin 0).

(** One turn of the loop of [calcOrdinaryTax]: the state is the running
    [tax] and the [rows] pushed so far. *)
Definition bracketStep (taxableOrdinary : jsnum)
    (st : jsnum * list OrdRow.t) (b : Bracket.t) : jsnum * list OrdRow.t :=
  let '(tax, rows) := st in
  let taxedAmount :=
    clampNonNeg (Math.min taxableOrdinary (Bracket.to b) - Bracket.from b)%js in
  let bracketTax := (taxedAmount * Bracket.rate b)%js in
  ((tax + bracketTax)%js,
   rows ++ [ {| OrdRow.label := Math.round (Bracket.rate b * Fin 100)%js;
                OrdRow.taxedAmount := taxedAmount;
                OrdRow.rate := Bracket.rate b;
                OrdRow.tax := bracketTax |} ]).

Definition calcOrdinaryTax (taxableOrdinary : jsnum) (status : string)
    : Result.t OrdRow.t :=
  let brackets :=
    match get status ORDINARY_BRACKETS_2025 with
    | Some (Some tbl) => tbl
    | _ => single_brackets
    end in
  let '(tax, rows) :=
    fold_left (bracketStep taxableOrdinary) brackets (Fin 0, []) in
  {| Result.tax := tax; Result.rows := rows |}.

(** Lines 86 to 106 of the script, for the thresholds [t] that line 82
    has selected. *)
Definition ltcgTiers (t : Thresholds.t) (totalTaxableIncome ltcg : jsnum)
    : Result.t LtcgRow.t :=
  let ordinaryTaxable := (totalTaxableIncome - ltcg)%js in
  let room0 := Math.max (Thresholds.r0_to t - ordinaryTaxable)%js (Fin 0) in
  let taxedAt0 := Math.min ltcg room0 in
  let remainingAfter0 := (ltcg - taxedAt0)%js in
  let start15 := Math.max ordinaryTaxable (Thresholds.r0_to t) in
  let room15 := Math.max (Thresholds.r15_to t - start15)%js (Fin 0) in
  let taxedAt15 := Math.min remainingAfter0 room15 in
  let taxedAt20 := Math.max (remainingAfter0 - taxedAt15)%js (Fin 0) in
  let rows :=
    [ {| LtcgRow.rate := Fin 0.00; LtcgRow.amount := taxedAt0;
         LtcgRow.tax := Fin 0 |};
      {| LtcgRow.rate := Fin 0.15; LtcgRow.amount := taxedAt15;
         LtcgRow.tax := (taxedAt15 * Fin 0.15)%js |};
      {| LtcgRow.rate := Fin 0.20; LtcgRow.amount := taxedAt20;
         LtcgRow.tax := (taxedAt20 * Fin 0.20)%js |} ] in
  let tax := ((taxedAt15 * Fin 0.15) + (taxedAt20 * Fin 0.20))%js in
  {| Result.tax := tax; Result.rows := rows |}.

Definition calcLtcgTax (totalTaxableIncome ltcg : jsnum) (status : string)
    : Result.t LtcgRow.t :=
  let t :=
    match get status LTCG_2025 with
    | Some t => t
    | None => single_ltcg
    end in
  ltcgTiers t totalTaxableIncome ltcg.

(** ** The page

    [display] and [textContent] are those of the element [warnBox].
    [raised] lists the messages [setWarn] has been called with, oldest
    first; the script keeps no such list, it is there for the statements
    about what was signalled. *)

Module Page.
Record t : Type :=
  { display : string; textContent : string; raised : list string }.
End Page.

Definition setWarn (msg : string) (page : Page.t) : Page.t :=
  if String.eqb msg "" then
    {| Page.display := "none"; Page.textContent := "";
       Page.raised := Page.raised page ++ [msg] |}
  else
    {| Page.display := "block"; Page.textContent := msg;
       Page.raised := Page.raised page ++ [msg] |}.

Definition deductions_warning : string :=
  "Your deductions (401k + other) are greater than your gross salary. Check inputs.".

Definition fallback_notice : string :=
  "Note: Ordinary income brackets currently use Single brackets as a fallback. Standard deduction and LTCG thresholds use your selected status. If you want full accuracy for MFJ/HOH/MFS, add those bracket tables.".

(** The entry fields as [calculate] reads them: the [value] of the status
    selector and of the six inputs. *)
Module Form.
Record t (V : Type) : Type :=
  { status : string;
    gross : V; withheld : V; k401 : V; otherDed : V; stcg : V; ltcg : V }.
Arguments status {V} _.
Arguments gross {V} _.
Arguments withheld {V} _.
Arguments k401 {V} _.
Arguments otherDed {V} _.
Arguments stcg {V} _.
Arguments ltcg {V} _.
End Form.

(** The local variables of [calculate] when it returns, and the page it
    leaves.  [deductionVal] is also what it writes into the deduction
    field. *)
Module Calc.
Record t : Type :=
  { deductionVal : jsnum;
    gross : jsnum; withheld : jsnum; k401 : jsnum; otherDed : jsnum;
    stcg : jsnum; ltcg : jsnum;
    adjustedW2 : jsnum;
    totalIncome : jsnum;
    taxableIncome : jsnum;
    taxableOrdinary : jsnum;
    ordinary : Result.t OrdRow.t;
    capgains : Result.t LtcgRow.t;
    totalTax : jsnum;
    refund : jsnum;
    refundHint : string;
    page : Page.t }.
End Calc.

Section Calculate.

(** [Number] is the host's conversion of a field value to a number;
    nothing is assumed about it. *)
Variable JSValue : Type.
Variable Number : JSValue -> jsnum.

Definition n (v : JSValue) : jsnum :=
  let x := Number v in
  if Number_isFinite x then x else Fin 0.

Definition calculate (form : Form.t JSValue) (page : Page.t) : Calc.t :=
  let status := Form.status form in
  let deductionVal :=
    match get status STD_DEDUCTION_2025 with
    | Some d => d
    | None => single_deduction
    end in
  let gross := n (Form.gross form) in
  let withheld := n (Form.withheld form) in
  let k401 := n (Form.k401 form) in
  let otherDed := n (Form.otherDed form) in
  let stcg := n (Form.stcg form) in
  let ltcg := n (Form.ltcg form) in
  let adjustedW2 := (gross - k401 - otherDed)%js in
  let page := setWarn "" page in
  let '(adjustedW2, page) :=
    if (adjustedW2 < Fin 0)%js
    then (Fin 0, setWarn deductions_warning page)
    else (adjustedW2, page) in
  let totalIncome := (adjustedW2 + stcg + ltcg)%js in
  let taxableIncome := clampNonNeg (totalIncome - deductionVal)%js in
  let taxableOrdinary := clampNonNeg (taxableIncome - ltcg)%js in
  let ordinary := calcOrdinaryTax taxableOrdinary status in
  let capgains := calcLtcgTax taxableIncome ltcg status in
  let totalTax := (Result.tax ordinary + Result.tax capgains)%js in
  let refund := (withheld - totalTax)%js in
  let refundHint :=
    if (refund >= Fin 0)%js
    then "Refund (you overpaid withholding)."
    else "Amount due (you underpaid withholding)." in
  let page :=
    if negb (String.eqb status "single")
    then setWarn fallback_notice page
    else page in
  {| Calc.deductionVal := deductionVal;
     Calc.gross := gross; Calc.withheld := withheld; Calc.k401 := k401;
     Calc.otherDed := otherDed; Calc.stcg := stcg; Calc.ltcg := ltcg;
     Calc.adjustedW2 := adjustedW2;
     Calc.totalIncome := totalIncome;
     Calc.taxableIncome := taxableIncome;
     Calc.taxableOrdinary := taxableOrdinary;
     Calc.ordinary := ordinary;
     Calc.capgains := capgains;
     Calc.totalTax := totalTax;
     Calc.refund := refund;
     Calc.refundHint := refundHint;
     Calc.page := page |}.

End Calculate.

Arguments n {JSValue} Number v.
Arguments calculate {JSValue} Number form page.

(** * Vocabulary of the statements *)

(** What one band contributes, as the loop body computes it. *)
Definition bandAmount (x : jsnum) (b : Bracket.t) : jsnum :=
  clampNonNeg (Math.min x (Bracket.to b) - Bracket.from b)%js.

Definition bandTax (x : jsnum) (b : Bracket.t) : jsnum :=
  (bandAmount x b * Bracket.rate b)%js.

Definition bandRow (x : jsnum) (b : Bracket.t) : OrdRow.t :=
  {| OrdRow.label := Math.round (Bracket.rate b * Fin 100)%js;
     OrdRow.taxedAmount := bandAmount x b;
     OrdRow.rate := Bracket.rate b;
     OrdRow.tax := bandTax x b |}.

(** The amount of [x] inside band [b] as the specification words it, and
    the row a band must give. *)
Definition amountInBand (x : jsnum) (b : Bracket.t) : jsnum :=
  Math.max (Fin 0) (Math.min x (Bracket.to b) - Bracket.from b)%js.

Definition rowOfBand (x : jsnum) (b : Bracket.t) (r : OrdRow.t) : Prop :=
  OrdRow.taxedAmount r =j= amountInBand x b /\
  OrdRow.rate r = Bracket.rate b /\
  OrdRow.tax r =j= (amountInBand x b * Bracket.rate b)%js.

Definition sumOfRowTaxes (rows : list OrdRow.t) : jsnum :=
  fold_right (fun r acc => (OrdRow.tax r + acc)%js) (Fin 0) rows.

(** A band of a table as the script writes them: a finite, non-negative
    rate, a finite lower edge, and an upper edge that is finite or
    [Infinity]. *)
Definition finiteBand (b : Bracket.t) : Prop :=
  match Bracket.rate b, Bracket.from b, Bracket.to b with
  | Fin r, Fin _, (Fin _ | PInf) => 0 <= r
  | _, _, _ => False
  end.

(** The amounts of the three rows of a capital-gains result are finite,
    non-negative and add up to [total]. *)
Definition tiersSplit (r : Result.t LtcgRow.t) (total : Q) : Prop :=
  exists taxedAt0 taxedAt15 taxedAt20 : Q,
    map LtcgRow.amount (Result.rows r) =
      [Fin taxedAt0; Fin taxedAt15; Fin taxedAt20] /\
    0 <= taxedAt0 /\ 0 <= taxedAt15 /\ 0 <= taxedAt20 /\
    taxedAt0 + taxedAt15 + taxedAt20 == total.

(** The six entries: where [calculate] reads each from, and the local
    variable it reads it into. *)
Definition entries {V : Type} : list ((Form.t V -> V) * (Calc.t -> jsnum)) :=
  [ (Form.gross, Calc.gross);
    (Form.withheld, Calc.withheld);
    (Form.k401, Calc.k401);
    (Form.otherDed, Calc.otherDed);
    (Form.stcg, Calc.stcg);
    (Form.ltcg, Calc.ltcg) ].

(** A form whose fields already hold numbers, on which the conversion
    changes nothing, and a page whose warning box is still empty. *)
Definition numberForm (status : string)
    (gross withheld k401 otherDed stcg ltcg : jsnum) : Form.t jsnum :=
  {| Form.status := status;
     Form.gross := gross; Form.withheld := withheld; Form.k401 := k401;
     Form.otherDed := otherDed; Form.stcg := stcg; Form.ltcg := ltcg |}.

Definition ofNumber (v : jsnum) : jsnum := v.

Definition blankPage : Page.t :=
  {| Page.display := "none"; Page.textContent := ""; Page.raised := [] |}.

(** [a] is a finite number within [eps] of [target]. *)
Definition within (eps target : Q) (a : jsnum) : Prop :=
  match a with
  | Fin q => Qabs (q - target) <= eps
  | _ => False
  end.

Definition example_1 : Form.t jsnum :=
  numberForm "single" (Fin 80000) (Fin 9000) (Fin 0) (Fin 0) (Fin 0) (Fin 0).

(** The precondition the specification puts on the arguments of the
    stacker. *)
Definition stackerPrecondition (totalTaxableIncome ltcg : jsnum) : Prop :=
  (Fin 0 <= ltcg)%js = true /\ (ltcg <= totalTaxableIncome)%js = true.

Definition gains_exceed_taxable : Form.t jsnum :=
  numberForm "single" (Fin 0) (Fin 0) (Fin 0) (Fin 0) (Fin 0) (Fin 10000).

Definition negative_gains : Form.t jsnum :=
  numberForm "single" (Fin 100000) (Fin 0) (Fin 0) (Fin 0) (Fin 0)
             (Fin (-1000)).

(** ** More vocabulary: the rows of a result *)

Definition sumOfAmounts (rows : list OrdRow.t) : jsnum :=
  fold_right (fun r acc => (OrdRow.taxedAmount r + acc)%js) (Fin 0) rows.

(** The amounts of the three capital-gains rows, top row first. *)
Definition tierAmounts (r : Result.t LtcgRow.t) : list jsnum :=
  map LtcgRow.amount (Result.rows r).

(** Thresholds that are finite numbers, as all four of [LTCG_2025] are. *)
Definition finiteThresholds (r0_to r15_to : Q) : Thresholds.t :=
  {| Thresholds.r0_to := Fin r0_to; Thresholds.r15_to := Fin r15_to |}.

Definition sumOfTierTaxes (rows : list LtcgRow.t) : jsnum :=
  fold_right (fun r acc => (LtcgRow.tax r + acc)%js) (Fin 0) rows.

(** The two texts of the refund hint. *)
Definition refund_hint : string := "Refund (you overpaid withholding).".

Definition due_hint : string := "Amount due (you underpaid withholding).".

(** The entries of example 1 with 10000 of the wages moved to the
    short-term gains. *)
Definition example_1_with_short_term : Form.t jsnum :=
  numberForm "single" (Fin 70000) (Fin 9000) (Fin 0) (Fin 0) (Fin 10000)
             (Fin 0).

(** The entries of example 1 with a 401k field that does not convert
    to a number. *)
Definition example_1_unreadable : Form.t jsnum :=
  numberForm "single" (Fin 80000) (Fin 9000) NaN (Fin 0) (Fin 0) (Fin 0).

(** Wages of 100000 and long-term gains of 50000, single. *)
Definition wages_and_gains : Form.t jsnum :=
  numberForm "single" (Fin 100000) (Fin 0) (Fin 0) (Fin 0) (Fin 0)
             (Fin 50000).

(** * Properties *)

(** ** Same-value equality *)

Lemma jeq_refl (a : jsnum) : a =j= a.
Proof. destruct a; simpl; auto with qarith. Qed.

Lemma jeq_sym (a b : jsnum) : a =j= b -> b =j= a.
Proof. destruct a, b; simpl; auto with qarith. Qed.

Lemma jeq_trans (a b c : jsnum) : a =j= b -> b =j= c -> a =j= c.
Proof.
  destruct a, b, c; simpl; try tauto.
  intros H1 H2. now rewrite H1.
Qed.

(** ** The loop of [calcOrdinaryTax] *)

Lemma bracketStep_loop (x : jsnum) (brackets : list Bracket.t) :
  forall (tax : jsnum) (rows : list OrdRow.t),
    fold_left (bracketStep x) brackets (tax, rows) =
    (fold_left (fun t b => (t + bandTax x b)%js) brackets tax,
     rows ++ map (bandRow x) brackets).
Proof.
  induction brackets as [|b bs IH]; intros tax rows; simpl.
  - now rewrite app_nil_r.
  - rewrite IH. f_equal. now rewrite <- app_assoc.
Qed.

Lemma calcOrdinaryTax_single (x : jsnum) :
  calcOrdinaryTax x "single" =
  {| Result.tax :=
       fold_left (fun t b => (t + bandTax x b)%js) single_brackets (Fin 0);
     Result.rows := map (bandRow x) single_brackets |}.
Proof.
  unfold calcOrdinaryTax.
  change (get "single" ORDINARY_BRACKETS_2025) with (Some (Some single_brackets)).
  now rewrite bracketStep_loop.
Qed.

Lemma max_zero_comm (q : Q) : Qmax q 0 == Qmax 0 q.
Proof. apply Q.max_comm. Qed.

(** C1.  For a taxable ordinary income [x >= 0] and the single table,
    [calcOrdinaryTax] gives one row per band, in the order of the table,
    bands above [x] included; the row of a band holds
    [max(0, min(x, to) - from)] as its taxed amount, the band's rate, and
    the product of the two as its tax; the returned total is the sum of
    the taxes of the rows. *)
Theorem calcOrdinaryTax_rows_and_total (x : Q) :
  0 <= x ->
  let r := calcOrdinaryTax (Fin x) "single" in
  Forall2 (rowOfBand (Fin x)) single_brackets (Result.rows r) /\
  Result.tax r =j= sumOfRowTaxes (Result.rows r).
Proof.
  intros _ r. subst r. rewrite calcOrdinaryTax_single.
  split.
  - cbn [Result.rows map single_brackets].
    repeat constructor; cbn.
    all: try (rewrite max_zero_comm; reflexivity).
  - cbn. ring.
Qed.

Lemma calcOrdinaryTax_rows_and_total_witness :
  0 <= 64250 /\
  Forall2 (rowOfBand (Fin 64250)) single_brackets
    (Result.rows (calcOrdinaryTax (Fin 64250) "single")) /\
  Result.tax (calcOrdinaryTax (Fin 64250) "single") =j=
  sumOfRowTaxes (Result.rows (calcOrdinaryTax (Fin 64250) "single")).
Proof.
  split.
  - discriminate.
  - apply (calcOrdinaryTax_rows_and_total 64250). discriminate.
Defined.

(** ** Fallback to the single table *)

Lemma calcOrdinaryTax_unpopulated (x : jsnum) (status : string) :
  (forall tbl, get status ORDINARY_BRACKETS_2025 <> Some (Some tbl)) ->
  calcOrdinaryTax x status = calcOrdinaryTax x "single".
Proof.
  intros H. unfold calcOrdinaryTax.
  destruct (get status ORDINARY_BRACKETS_2025) as [[tbl|]|] eqn:E;
    try reflexivity.
  now destruct (H tbl).
Qed.

(** C8.  For the three statuses whose entry of [ORDINARY_BRACKETS_2025]
    is [null] (mfj, hoh, mfs), [calcOrdinaryTax] returns, for every
    number [x], exactly what it returns for [single]. *)
Theorem calcOrdinaryTax_fallback (x : jsnum) :
  calcOrdinaryTax x "mfj" = calcOrdinaryTax x "single" /\
  calcOrdinaryTax x "hoh" = calcOrdinaryTax x "single" /\
  calcOrdinaryTax x "mfs" = calcOrdinaryTax x "single".
Proof.
  repeat split; apply calcOrdinaryTax_unpopulated; intros tbl; discriminate.
Qed.

Lemma calcOrdinaryTax_any_status (x : jsnum) (s : FilingStatus) :
  calcOrdinaryTax x (key s) = calcOrdinaryTax x "single".
Proof.
  destruct s; try reflexivity;
    apply calcOrdinaryTax_unpopulated; intros tbl; discriminate.
Qed.

(** ** Monotonicity of the bracket total *)

Lemma Js_le_Fin (a b : Q) : (Fin a <= Fin b)%js = true <-> a <= b.
Proof.
  unfold Js.le, Js.lt. rewrite Qle_alt, <- (Qcompare_antisym a b).
  destruct (a ?= b); simpl; split; intros H; try reflexivity;
    try discriminate; try (intros E; discriminate E).
  now destruct H.
Qed.

Lemma Js_lt_Fin (a b : Q) : (Fin a < Fin b)%js = true <-> a < b.
Proof.
  unfold Js.lt. rewrite Qlt_alt.
  destruct (a ?= b); split; intros H; try reflexivity; discriminate.
Qed.

Lemma single_brackets_finite : Forall finiteBand single_brackets.
Proof. repeat constructor; discriminate. Qed.

Lemma clamp_mono (u v r : Q) :
  u <= v -> 0 <= r -> Qmax u 0 * r <= Qmax v 0 * r.
Proof.
  intros Huv Hr. apply Qmult_le_compat_r; [|exact Hr].
  destruct (Q.max_spec u 0) as [[_ ->]|[_ ->]],
           (Q.max_spec v 0) as [[Hv ->]|[Hv ->]]; lra.
Qed.

Lemma bandTax_mono (b : Bracket.t) (x1 x2 : Q) :
  finiteBand b -> x1 <= x2 ->
  exists q1 q2,
    bandTax (Fin x1) b = Fin q1 /\ bandTax (Fin x2) b = Fin q2 /\ q1 <= q2.
Proof.
  destruct b as [rate from to]. unfold finiteBand, bandTax, bandAmount.
  cbn [Bracket.rate Bracket.from Bracket.to].
  destruct rate as [r| | |], from as [f| | |]; try tauto.
  destruct to as [t| | |]; try tauto; intros Hr Hx; cbn;
    eexists; eexists; (split; [reflexivity|split; [reflexivity|]]);
    apply clamp_mono; trivial.
  - destruct (Q.min_spec x1 t) as [[? ->]|[? ->]],
             (Q.min_spec x2 t) as [[? ->]|[? ->]]; lra.
  - lra.
Qed.

Lemma bracket_total_mono (brackets : list Bracket.t) (x1 x2 : Q) :
  Forall finiteBand brackets -> x1 <= x2 ->
  forall a1 a2 : Q, a1 <= a2 ->
  exists t1 t2,
    fold_left (fun t b => (t + bandTax (Fin x1) b)%js) brackets (Fin a1)
      = Fin t1 /\
    fold_left (fun t b => (t + bandTax (Fin x2) b)%js) brackets (Fin a2)
      = Fin t2 /\
    t1 <= t2.
Proof.
  intros Hfin Hx. induction Hfin as [|b bs Hb _ IH]; intros a1 a2 Ha.
  - exists a1, a2. auto.
  - destruct (bandTax_mono b x1 x2 Hb Hx) as (q1 & q2 & E1 & E2 & Hq).
    cbn [fold_left]. rewrite E1, E2. cbn [Js.add].
    apply IH. lra.
Qed.

(** C6.  For taxable ordinary incomes [0 <= x1 <= x2] and one filing
    status (hence one bracket table), the total returned for [x1] is at
    most the total returned for [x2]. *)
Theorem calcOrdinaryTax_monotone (s : FilingStatus) (x1 x2 : Q) :
  0 <= x1 -> x1 <= x2 ->
  (Result.tax (calcOrdinaryTax (Fin x1) (key s)) <=
   Result.tax (calcOrdinaryTax (Fin x2) (key s)))%js = true.
Proof.
  intros _ Hx. rewrite !calcOrdinaryTax_any_status, !calcOrdinaryTax_single.
  cbn [Result.tax].
  destruct (bracket_total_mono single_brackets x1 x2
              single_brackets_finite Hx 0 0) as (t1 & t2 & -> & -> & Ht).
  - lra.
  - now apply Js_le_Fin.
Qed.

Lemma calcOrdinaryTax_monotone_witness :
  0 <= 11925 /\ 11925 <= 64250 /\
  (Result.tax (calcOrdinaryTax (Fin 11925) (key Hoh)) <=
   Result.tax (calcOrdinaryTax (Fin 64250) (key Hoh)))%js = true.
Proof.
  split; [discriminate|split; [discriminate|]].
  apply (calcOrdinaryTax_monotone Hoh 11925 64250); discriminate.
Defined.

(** ** The three capital-gains tiers *)

Lemma ltcgTiers_split (r0_to r15_to totalTaxableIncome ltcg : Q) :
  0 <= ltcg ->
  tiersSplit
    (ltcgTiers {| Thresholds.r0_to := Fin r0_to;
                  Thresholds.r15_to := Fin r15_to |}
               (Fin totalTaxableIncome) (Fin ltcg))
    ltcg.
Proof.
  intros Hl. unfold tiersSplit, ltcgTiers.
  cbn [Thresholds.r0_to Thresholds.r15_to Js.sub Js.add Js.mul
       Math.max Math.min Result.rows map LtcgRow.amount].
  set (ordinaryTaxable := totalTaxableIncome - ltcg).
  set (room0 := Qmax (r0_to - ordinaryTaxable) 0).
  set (taxedAt0 := Qmin ltcg room0).
  set (room15 := Qmax (r15_to - Qmax ordinaryTaxable r0_to) 0).
  set (taxedAt15 := Qmin (ltcg - taxedAt0) room15).
  set (taxedAt20 := Qmax (ltcg - taxedAt0 - taxedAt15) 0).
  exists taxedAt0, taxedAt15, taxedAt20.
  pose proof (Q.le_max_r (r0_to - ordinaryTaxable) 0) as H0.
  pose proof (Q.le_max_r (r15_to - Qmax ordinaryTaxable r0_to) 0) as H15.
  fold room0 in H0. fold room15 in H15.
  pose proof (Q.min_spec ltcg room0) as S0. fold taxedAt0 in S0.
  pose proof (Q.min_spec (ltcg - taxedAt0) room15) as S15.
  fold taxedAt15 in S15.
  pose proof (Q.max_spec (ltcg - taxedAt0 - taxedAt15) 0) as S20.
  fold taxedAt20 in S20.
  clearbody room0 room15 taxedAt0 taxedAt15 taxedAt20.
  split; [reflexivity|]. lra.
Qed.

Lemma LTCG_2025_finite (s : FilingStatus) :
  exists r0_to r15_to : Q,
    r0_to <= r15_to /\
    get (key s) LTCG_2025 =
      Some {| Thresholds.r0_to := Fin r0_to; Thresholds.r15_to := Fin r15_to |}.
Proof.
  destruct s; cbn; eexists; eexists; (split; [|reflexivity]); discriminate.
Qed.

Lemma calcLtcgTax_split (s : FilingStatus) (totalTaxableIncome ltcg : Q) :
  0 <= ltcg ->
  tiersSplit (calcLtcgTax (Fin totalTaxableIncome) (Fin ltcg) (key s)) ltcg.
Proof.
  intros Hl. unfold calcLtcgTax.
  destruct (LTCG_2025_finite s) as (r0 & r15 & _ & ->).
  now apply ltcgTiers_split.
Qed.

(** C2.  For valid arguments of the stacker, that is a total taxable
    income [>= 0], gains between [0] and that total, and thresholds with
    [r0_to <= r15_to], the amounts taxed at 0, 15 and 20 percent are each
    [>= 0] and add up to the gains; so it is for the thresholds
    [calcLtcgTax] selects for each filing status. *)
Theorem ltcg_conservation (r0_to r15_to totalTaxableIncome ltcg : Q) :
  0 <= totalTaxableIncome ->
  0 <= ltcg -> ltcg <= totalTaxableIncome ->
  r0_to <= r15_to ->
  tiersSplit
    (ltcgTiers {| Thresholds.r0_to := Fin r0_to;
                  Thresholds.r15_to := Fin r15_to |}
               (Fin totalTaxableIncome) (Fin ltcg))
    ltcg /\
  forall s : FilingStatus,
    tiersSplit (calcLtcgTax (Fin totalTaxableIncome) (Fin ltcg) (key s)) ltcg.
Proof.
  intros _ Hl _ _. split.
  - now apply ltcgTiers_split.
  - intros s. now apply calcLtcgTax_split.
Qed.

Lemma ltcg_conservation_witness :
  0 <= 600000 /\ 0 <= 500000 /\ 500000 <= 600000 /\ 48350 <= 533400 /\
  tiersSplit
    (ltcgTiers {| Thresholds.r0_to := Fin 48350;
                  Thresholds.r15_to := Fin 533400 |}
               (Fin 600000) (Fin 500000))
    500000.
Proof.
  repeat (split; [discriminate|]).
  apply (ltcg_conservation 48350 533400 600000 500000); discriminate.
Defined.

(** C9.  The split does not need gains below the total taxable income:
    for gains [>= 0], every finite total taxable income (also one below
    the gains, which makes [ordinaryTaxable] negative) and every filing
    status, [calcLtcgTax] returns three amounts that are each [>= 0] and
    add up to the gains.  The function has no failing path: it is total
    and its three amounts are finite numbers. *)
Theorem calcLtcgTax_conserves_without_bound
    (s : FilingStatus) (totalTaxableIncome ltcg : Q) :
  0 <= ltcg ->
  tiersSplit (calcLtcgTax (Fin totalTaxableIncome) (Fin ltcg) (key s)) ltcg.
Proof. apply calcLtcgTax_split. Qed.

Lemma calcLtcgTax_conserves_without_bound_witness :
  0 <= 10000 /\
  tiersSplit (calcLtcgTax (Fin (-5000)) (Fin 10000) (key Mfs)) 10000.
Proof.
  split; [discriminate|].
  apply (calcLtcgTax_conserves_without_bound Mfs (-5000) 10000). discriminate.
Defined.

(** C5.  End-to-end example 3: for a total taxable income of 600000, of
    which 500000 are long-term gains, and the single thresholds
    (48350, 533400), the amounts are 0, 433400 and 66600 and the tax is
    78330. *)
Theorem calcLtcgTax_example_3 :
  let r := calcLtcgTax (Fin 600000) (Fin 500000) "single" in
  get "single" LTCG_2025 =
    Some {| Thresholds.r0_to := Fin 48350; Thresholds.r15_to := Fin 533400 |} /\
  map LtcgRow.amount (Result.rows r) = [Fin 0; Fin 433400; Fin 66600] /\
  Result.tax r =j= Fin 78330.
Proof.
  cbv zeta. split; [reflexivity|]. split.
  - vm_compute. reflexivity.
  - vm_compute. reflexivity.
Qed.

(** ** The input helper and the derived figures *)

Section CalculateFacts.

Context {JSValue : Type} (Number : JSValue -> jsnum).

Lemma n_finite (v : JSValue) : exists q : Q, n Number v = Fin q.
Proof.
  unfold n. destruct (Number v) as [q| | |]; cbn; eauto.
Qed.

Lemma deductionVal_finite (status : string) :
  exists d : Q,
    match get status STD_DEDUCTION_2025 with
    | Some d => d
    | None => single_deduction
    end = Fin d.
Proof.
  unfold STD_DEDUCTION_2025, get, single_deduction.
  repeat match goal with
         | |- context [if ?c then _ else _] => destruct c
         end; eauto.
Qed.

(** The figures [calculate] derives, field by field: the six entries as
    [n] reads them, the deduction of the status, and the three clamped
    amounts. *)
Lemma calculate_locals (form : Form.t JSValue) (page : Page.t) :
  let c := calculate Number form page in
  exists gross withheld k401 otherDed stcg ltcg deductionVal adjustedW2 : Q,
    n Number (Form.gross form) = Fin gross /\
    n Number (Form.withheld form) = Fin withheld /\
    n Number (Form.k401 form) = Fin k401 /\
    n Number (Form.otherDed form) = Fin otherDed /\
    n Number (Form.stcg form) = Fin stcg /\
    n Number (Form.ltcg form) = Fin ltcg /\
    Calc.deductionVal c = Fin deductionVal /\
    Calc.adjustedW2 c = Fin adjustedW2 /\
    adjustedW2 == Qmax (gross - k401 - otherDed) 0 /\
    Calc.totalIncome c = Fin (adjustedW2 + stcg + ltcg) /\
    Calc.taxableIncome c =
      Fin (Qmax (adjustedW2 + stcg + ltcg - deductionVal) 0) /\
    Calc.taxableOrdinary c =
      Fin (Qmax (Qmax (adjustedW2 + stcg + ltcg - deductionVal) 0 - ltcg) 0).
Proof.
  intros c. subst c. unfold calculate.
  destruct (n_finite (Form.gross form)) as [g ->].
  destruct (n_finite (Form.withheld form)) as [w ->].
  destruct (n_finite (Form.k401 form)) as [k ->].
  destruct (n_finite (Form.otherDed form)) as [o ->].
  destruct (n_finite (Form.stcg form)) as [s ->].
  destruct (n_finite (Form.ltcg form)) as [l ->].
  destruct (deductionVal_finite (Form.status form)) as [d ->].
  cbn [Js.sub].
  destruct (Fin (g - k - o) < Fin 0)%js eqn:E.
  - apply Js_lt_Fin in E.
    exists g, w, k, o, s, l, d, 0. cbn.
    repeat (split; [reflexivity|]).
    split; [|repeat split].
    destruct (Q.max_spec (g - k - o) 0) as [[? ->]|[? ->]]; lra.
  - assert (H : ~ g - k - o < 0)
      by (intros H; apply Js_lt_Fin in H; congruence).
    exists g, w, k, o, s, l, d, (g - k - o). cbn.
    repeat (split; [reflexivity|]).
    split; [|repeat split].
    destruct (Q.max_spec (g - k - o) 0) as [[? ->]|[? ->]]; lra.
Qed.

End CalculateFacts.

Lemma calculate_reads {V : Type} (Number : V -> jsnum)
    (form : Form.t V) (page : Page.t) :
  forall rd, In rd entries ->
    snd rd (calculate Number form page) = n Number (fst rd form).
Proof.
  intros rd Hin. unfold calculate.
  destruct (_ < _)%js;
    repeat (destruct Hin as [<-|Hin]; [reflexivity|]); destruct Hin.
Qed.

(** ** End-to-end example 1 *)

(** C7, as stated, fails: on the entries of example 1 the ordinary tax is
    9049, which is 34.50 away from 9014.50. *)
Lemma example_1_tax_is_not_9014_50 :
  let c := calculate ofNumber example_1 blankPage in
  Result.tax (Calc.ordinary c) =j= Fin 9049 /\
  ~ within 34 9014.50 (Result.tax (Calc.ordinary c)).
Proof.
  cbv zeta. split.
  - vm_compute. reflexivity.
  - vm_compute. intros H. now apply H.
Qed.

(** C7, amended.  For a single filer whose entries convert to gross
    80000, 401k 0, other deductions 0, short-term gains 0, long-term
    gains 0 and withheld 9000, the deduction is 15750 and [calculate]
    derives adjustedW2 80000, total income 80000, taxable income 64250,
    taxable ordinary income 64250, ordinary tax 9049
    (1192.50 + 4386 + 3470.50), and a refund figure equal to withheld
    minus total tax, which is -49. *)
Theorem calculate_example_1 {V : Type} (Number : V -> jsnum)
    (form : Form.t V) (page : Page.t) :
  Form.status form = "single" ->
  Number (Form.gross form) = Fin 80000 ->
  Number (Form.k401 form) = Fin 0 ->
  Number (Form.otherDed form) = Fin 0 ->
  Number (Form.stcg form) = Fin 0 ->
  Number (Form.ltcg form) = Fin 0 ->
  Number (Form.withheld form) = Fin 9000 ->
  let c := calculate Number form page in
  Calc.deductionVal c = Fin 15750 /\
  Calc.adjustedW2 c =j= Fin 80000 /\
  Calc.totalIncome c =j= Fin 80000 /\
  Calc.taxableIncome c =j= Fin 64250 /\
  Calc.taxableOrdinary c =j= Fin 64250 /\
  Result.tax (Calc.ordinary c) =j= Fin 9049 /\
  Calc.refund c = (Calc.withheld c - Calc.totalTax c)%js /\
  Calc.refund c =j= Fin (-49).
Proof.
  intros Hs Hg Hk Ho Hst Hl Hw c. subst c.
  unfold calculate, n. rewrite Hs, Hg, Hk, Ho, Hst, Hl, Hw.
  cbn [Number_isFinite].
  repeat split; vm_compute; reflexivity.
Qed.

Lemma calculate_example_1_witness :
  let c := calculate ofNumber example_1 blankPage in
  Result.tax (Calc.ordinary c) =j= Fin 9049 /\ Calc.refund c =j= Fin (-49).
Proof.
  cbv zeta.
  destruct (calculate_example_1 ofNumber example_1 blankPage
              eq_refl eq_refl eq_refl eq_refl eq_refl eq_refl eq_refl)
    as (_ & _ & _ & _ & _ & Ht & _ & Hr).
  split; assumption.
Defined.

(** ** What [calculate] hands to the two computations *)

Lemma calculate_calls {V : Type} (Number : V -> jsnum)
    (form : Form.t V) (page : Page.t) :
  let c := calculate Number form page in
  Calc.ordinary c = calcOrdinaryTax (Calc.taxableOrdinary c) (Form.status form) /\
  Calc.capgains c =
    calcLtcgTax (Calc.taxableIncome c) (Calc.ltcg c) (Form.status form) /\
  Calc.taxableIncome c =
    clampNonNeg (Calc.totalIncome c - Calc.deductionVal c)%js /\
  Calc.taxableOrdinary c =
    clampNonNeg (Calc.taxableIncome c - Calc.ltcg c)%js.
Proof.
  cbv zeta. unfold calculate. destruct (_ < _)%js; repeat split.
Qed.

(** C3, as stated, fails: with 10000 of long-term gains and nothing else
    the taxable income is 0, so [calcLtcgTax] is called with gains above
    the total, and [ordinaryTaxable] is negative inside it. *)
Lemma calculate_breaks_stacker_precondition :
  let c := calculate ofNumber gains_exceed_taxable blankPage in
  Calc.capgains c =
    calcLtcgTax (Calc.taxableIncome c) (Calc.ltcg c) "single" /\
  Calc.taxableIncome c =j= Fin 0 /\
  Calc.ltcg c =j= Fin 10000 /\
  ~ stackerPrecondition (Calc.taxableIncome c) (Calc.ltcg c) /\
  (Calc.taxableIncome c - Calc.ltcg c < Fin 0)%js = true.
Proof.
  cbv zeta. repeat split; try (vm_compute; reflexivity).
  intros [_ H]. vm_compute in H. discriminate H.
Qed.

(** C3, amended.  [calculate] calls the stacker with its taxable income,
    which is never negative, and with the long-term gains as [n] read
    them, unclamped.  It does not establish the precondition
    [0 <= ltcg <= totalTaxableIncome]: that holds exactly when the gains
    read are not negative and either are zero or do not exceed the
    difference [totalIncome - deductionVal] that [calculate] computed;
    when it holds, [ordinaryTaxable] is not negative. *)
Theorem calculate_stacker_arguments {V : Type} (Number : V -> jsnum)
    (form : Form.t V) (page : Page.t) :
  let c := calculate Number form page in
  Calc.capgains c =
    calcLtcgTax (Calc.taxableIncome c) (Calc.ltcg c) (Form.status form) /\
  Calc.ltcg c = n Number (Form.ltcg form) /\
  Calc.taxableIncome c =
    clampNonNeg (Calc.totalIncome c - Calc.deductionVal c)%js /\
  (Fin 0 <= Calc.taxableIncome c)%js = true /\
  (stackerPrecondition (Calc.taxableIncome c) (Calc.ltcg c) <->
   (Fin 0 <= Calc.ltcg c)%js = true /\
   (Calc.ltcg c =j= Fin 0 \/
    (Calc.ltcg c <= Calc.totalIncome c - Calc.deductionVal c)%js = true)) /\
  (stackerPrecondition (Calc.taxableIncome c) (Calc.ltcg c) ->
   (Fin 0 <= Calc.taxableIncome c - Calc.ltcg c)%js = true).
Proof.
  intros c.
  destruct (calculate_calls Number form page) as (_ & Hcall & Hclamp & _).
  destruct (calculate_locals Number form page)
    as (g & w & k & o & s & l & d & a &
        _ & _ & _ & _ & _ & Hl & Hd & _ & _ & Htot & Hti & _).
  pose proof (calculate_reads Number form page (Form.ltcg, Calc.ltcg))
    as Rl; cbn [fst snd] in Rl.
  fold c in Hcall, Hclamp, Hd, Htot, Hti, Rl.
  split; [exact Hcall|]. split; [apply Rl; cbn; tauto|].
  split; [exact Hclamp|].
  rewrite Rl by (cbn; tauto).
  rewrite Hl, Hd, Htot, Hti. unfold stackerPrecondition.
  cbn [Js.add Js.sub jeq]. rewrite !Js_le_Fin.
  pose proof (Q.max_spec (a + s + l - d) 0) as M.
  set (m := Qmax (a + s + l - d) 0) in *. clearbody m.
  repeat split; try lra.
  all: intros; lra.
Qed.

(** ** Clamping and the wage advisory *)

Lemma setWarn_raised (msg : string) (page : Page.t) :
  Page.raised (setWarn msg page) = Page.raised page ++ [msg].
Proof. unfold setWarn. destruct (msg =? "")%string; reflexivity. Qed.

Lemma setWarn_text (msg : string) (page : Page.t) :
  Page.textContent (setWarn msg page) = msg.
Proof.
  unfold setWarn. destruct (msg =? "")%string eqn:E; [|reflexivity].
  apply String.eqb_eq in E. now subst.
Qed.

(** The page [calculate] leaves: the box is cleared, the deductions
    warning is set when the adjusted wages are negative, and the
    fallback notice is set last for every status but single. *)
Lemma calculate_page {V : Type} (Number : V -> jsnum)
    (form : Form.t V) (page : Page.t) :
  Calc.page (calculate Number form page) =
  let unclamped :=
    (n Number (Form.gross form) - n Number (Form.k401 form)
     - n Number (Form.otherDed form))%js in
  let page := setWarn "" page in
  let page :=
    if (unclamped < Fin 0)%js then setWarn deductions_warning page
    else page in
  if negb (String.eqb (Form.status form) "single")
  then setWarn fallback_notice page
  else page.
Proof.
  unfold calculate. cbv zeta. destruct (_ < _)%js; reflexivity.
Qed.

(** C4, as stated, fails: a negative entry for the long-term gains is
    not clamped; [calcLtcgTax] is called with it and reports a negative
    amount in its first row. *)
Lemma calculate_passes_negative_gains :
  let c := calculate ofNumber negative_gains blankPage in
  Calc.ltcg c =j= Fin (-1000) /\
  (Calc.ltcg c < Fin 0)%js = true /\
  Calc.capgains c =
    calcLtcgTax (Calc.taxableIncome c) (Calc.ltcg c) "single" /\
  exists row rest,
    Result.rows (Calc.capgains c) = row :: rest /\
    (LtcgRow.amount row < Fin 0)%js = true.
Proof.
  cbv zeta. repeat split; try (vm_compute; reflexivity).
  eexists; eexists; split; [reflexivity|]. vm_compute. reflexivity.
Qed.

(** C4, amended.  [calculate] does not clamp the entries one by one; it
    clamps three derived amounts: the adjusted wages
    [gross - k401 - otherDed], the taxable income and the taxable
    ordinary income.  Hence [calcOrdinaryTax] always receives an amount
    [>= 0] and [calcLtcgTax] a total taxable income [>= 0], while the
    long-term gains reach [calcLtcgTax] as entered.  [setWarn] is called
    with the deductions warning exactly when the adjusted wages were
    negative before clamping, and for status single that warning is the
    text the box holds when [calculate] returns. *)
Theorem calculate_clamps_derived_amounts {V : Type} (Number : V -> jsnum)
    (form : Form.t V) (page : Page.t) :
  let c := calculate Number form page in
  let unclamped := (Calc.gross c - Calc.k401 c - Calc.otherDed c)%js in
  Calc.adjustedW2 c =j= clampNonNeg unclamped /\
  Calc.taxableIncome c =
    clampNonNeg (Calc.totalIncome c - Calc.deductionVal c)%js /\
  Calc.taxableOrdinary c =
    clampNonNeg (Calc.taxableIncome c - Calc.ltcg c)%js /\
  Calc.ordinary c =
    calcOrdinaryTax (Calc.taxableOrdinary c) (Form.status form) /\
  (Fin 0 <= Calc.taxableOrdinary c)%js = true /\
  Calc.capgains c =
    calcLtcgTax (Calc.taxableIncome c) (Calc.ltcg c) (Form.status form) /\
  (Fin 0 <= Calc.taxableIncome c)%js = true /\
  Calc.ltcg c = n Number (Form.ltcg form) /\
  (exists calls,
     Page.raised (Calc.page c) = Page.raised page ++ calls /\
     (In deductions_warning calls <-> (unclamped < Fin 0)%js = true)) /\
  (Form.status form = "single" ->
   Page.textContent (Calc.page c) =
     if (unclamped < Fin 0)%js then deductions_warning else "").
Proof.
  intros c unclamped.
  destruct (calculate_calls Number form page) as (Hord & Hcap & Hti & Hto).
  destruct (calculate_locals Number form page)
    as (g & w & k & o & s & l & d & a &
        Hg & _ & Hk & Ho & _ & _ & _ & Ha & Ea & _ & Eti & Eto).
  fold c in Hord, Hcap, Hti, Hto, Ha, Eti, Eto.
  assert (R : forall rd, In rd entries ->
                snd rd c = n Number (fst rd form))
    by (apply calculate_reads).
  assert (Eu : unclamped = Fin (g - k - o)).
  { pose proof (R (Form.gross, Calc.gross)) as Rg.
    pose proof (R (Form.k401, Calc.k401)) as Rk.
    pose proof (R (Form.otherDed, Calc.otherDed)) as Ro.
    cbn [fst snd] in Rg, Rk, Ro. unfold unclamped.
    rewrite Rg, Rk, Ro by (cbn; tauto). now rewrite Hg, Hk, Ho. }
  split. { rewrite Ha, Eu. cbn. exact Ea. }
  split; [exact Hti|]. split; [exact Hto|]. split; [exact Hord|].
  split. { rewrite Eto. apply Js_le_Fin, Q.le_max_r. }
  split; [exact Hcap|].
  split. { rewrite Eti. apply Js_le_Fin, Q.le_max_r. }
  split. { apply (R (Form.ltcg, Calc.ltcg)). cbn; tauto. }
  clearbody unclamped. subst unclamped. subst c.
  rewrite (calculate_page Number form page), Hg, Hk, Ho.
  cbv zeta. cbn [Js.sub]. clear.
  destruct (Fin (g - k - o) < Fin 0)%js;
    destruct (Form.status form =? "single")%string eqn:Es;
    cbn [negb]; rewrite ?setWarn_raised, ?setWarn_text, <- ?app_assoc;
    (split;
     [ eexists; split; [reflexivity|];
       cbn; split; intros H; try reflexivity; try discriminate;
       repeat (destruct H as [H|H]; try discriminate H); try tauto
     | intros Hs; try reflexivity;
       apply String.eqb_neq in Es; congruence ]).
Qed.

(** * Further properties of the code *)

(** ** Tactics for the closed forms *)

(** Decide each [Qmin] and [Qmax] of the goal from the hypotheses. *)
Ltac resolve_minmax :=
  repeat match goal with
         | |- context [Qmin ?a ?b] =>
             first [ rewrite (Q.min_l a b) by lra
                   | rewrite (Q.min_r a b) by lra ]
         | |- context [Qmax ?a ?b] =>
             first [ rewrite (Q.max_l a b) by lra
                   | rewrite (Q.max_r a b) by lra ]
         end.

(** Place [x] among the six finite edges of the single table. *)
Ltac place_in_band x :=
  destruct (Qlt_le_dec x 11925);
  [|destruct (Qlt_le_dec x 48475);
    [|destruct (Qlt_le_dec x 103350);
      [|destruct (Qlt_le_dec x 197300);
        [|destruct (Qlt_le_dec x 250525);
          [|destruct (Qlt_le_dec x 626350)]]]]].

(** ** The bracket breakdown *)

(** X1.  Whatever number is passed (finite or not) and whatever the
    filing status, the breakdown has the seven rows of the single table,
    labelled 10, 12, 22, 24, 32, 35 and 37 and carrying the rates of the
    table. *)
Theorem calcOrdinaryTax_rows_fixed (x : jsnum) (s : FilingStatus) :
  let r := calcOrdinaryTax x (key s) in
  map OrdRow.label (Result.rows r) =
    [Fin 10; Fin 12; Fin 22; Fin 24; Fin 32; Fin 35; Fin 37] /\
  map OrdRow.rate (Result.rows r) = map Bracket.rate single_brackets.
Proof.
  cbv zeta. rewrite calcOrdinaryTax_any_status, calcOrdinaryTax_single.
  cbn [Result.rows]. rewrite !map_map. split; reflexivity.
Qed.

Lemma single_amounts_sum (x : Q) :
  0 <= x ->
  sumOfAmounts (map (bandRow (Fin x)) single_brackets) =j= Fin x.
Proof.
  intros Hx. cbn. place_in_band x; resolve_minmax; ring.
Qed.

(** X2.  For an income [x >= 0] the taxed amounts of the rows add up to
    [x]: the bands of the table tile the incomes from 0 upwards. *)
Theorem calcOrdinaryTax_amounts_add_up (x : Q) (s : FilingStatus) :
  0 <= x ->
  sumOfAmounts (Result.rows (calcOrdinaryTax (Fin x) (key s))) =j= Fin x.
Proof.
  intros Hx. rewrite calcOrdinaryTax_any_status, calcOrdinaryTax_single.
  now apply single_amounts_sum.
Qed.

Lemma calcOrdinaryTax_amounts_add_up_witness :
  0 <= 64250 /\
  sumOfAmounts (Result.rows (calcOrdinaryTax (Fin 64250) (key Mfj)))
    =j= Fin 64250.
Proof.
  split; [discriminate|].
  apply (calcOrdinaryTax_amounts_add_up 64250 Mfj). discriminate.
Defined.

(** X3.  For an income [x <= 0] every row has taxed amount 0 and tax 0,
    and the total is 0. *)
Theorem calcOrdinaryTax_nothing_to_tax (x : Q) (s : FilingStatus) :
  x <= 0 ->
  let r := calcOrdinaryTax (Fin x) (key s) in
  Forall (fun row => OrdRow.taxedAmount row =j= Fin 0 /\
                     OrdRow.tax row =j= Fin 0) (Result.rows r) /\
  Result.tax r =j= Fin 0.
Proof.
  intros Hx. cbv zeta.
  rewrite calcOrdinaryTax_any_status, calcOrdinaryTax_single.
  cbn. split; [repeat constructor; cbn|]; resolve_minmax; ring.
Qed.

Lemma calcOrdinaryTax_nothing_to_tax_witness :
  0 <= 0 /\ Result.tax (calcOrdinaryTax (Fin 0) (key Single)) =j= Fin 0.
Proof.
  split; [discriminate|].
  apply (calcOrdinaryTax_nothing_to_tax 0 Single). discriminate.
Defined.

(** X4.  No row taxes more than the width of its band: for every finite
    income, the taxed amount of each row lies between 0 and
    [to - from] of its band (which is [Infinity] for the last one). *)
Theorem calcOrdinaryTax_amount_within_band (x : Q) (s : FilingStatus) :
  Forall2
    (fun b row =>
       (Fin 0 <= OrdRow.taxedAmount row)%js = true /\
       (OrdRow.taxedAmount row <= Bracket.to b - Bracket.from b)%js = true)
    single_brackets (Result.rows (calcOrdinaryTax (Fin x) (key s))).
Proof.
  rewrite calcOrdinaryTax_any_status, calcOrdinaryTax_single.
  cbn [Result.rows single_brackets map].
  repeat constructor;
    cbn [bandRow bandAmount OrdRow.taxedAmount Bracket.to Bracket.from
         clampNonNeg Math.min Math.max Js.sub];
    try apply Js_le_Fin; try reflexivity;
    match goal with
    | |- context [Qmax (Qmin ?a ?b - ?c) 0] =>
        pose proof (Q.min_spec a b);
        pose proof (Q.max_spec (Qmin a b - c) 0);
        set (m := Qmin a b) in *; clearbody m;
        set (M := Qmax (m - c) 0) in *; clearbody M; lra
    | |- context [Qmax ?u 0] =>
        pose proof (Q.max_spec u 0);
        set (M := Qmax u 0) in *; clearbody M; lra
    end.
Qed.

(** X6.  [calcOrdinaryTax] does not guard against a number that is not
    finite: [NaN] gives [NaN] in every taxed amount and in the total,
    [Infinity] gives the total [Infinity], and [-Infinity] gives the
    total 0. *)
Theorem calcOrdinaryTax_not_finite (s : FilingStatus) :
  (let r := calcOrdinaryTax NaN (key s) in
   Forall (fun row => OrdRow.taxedAmount row = NaN) (Result.rows r) /\
   Result.tax r = NaN) /\
  Result.tax (calcOrdinaryTax PInf (key s)) = PInf /\
  Result.tax (calcOrdinaryTax NInf (key s)) =j= Fin 0.
Proof.
  cbv zeta. rewrite !calcOrdinaryTax_any_status, !calcOrdinaryTax_single.
  repeat split; try (repeat constructor); vm_compute; reflexivity.
Qed.

(** ** The capital-gains tiers *)

(** Name each [Qmin] and [Qmax] of the goal, innermost first, keeping
    what [Q.min_spec] and [Q.max_spec] say about it. *)
Ltac no_minmax t :=
  lazymatch t with
  | context [Qmin _ _] => fail
  | context [Qmax _ _] => fail
  | _ => idtac
  end.

Ltac name_minmax :=
  repeat match goal with
         | |- context [Qmin ?a ?b] =>
             no_minmax a; no_minmax b;
             let m := fresh "m" in
             pose proof (Q.min_spec a b);
             set (m := Qmin a b) in *; clearbody m
         | |- context [Qmax ?a ?b] =>
             no_minmax a; no_minmax b;
             let m := fresh "m" in
             pose proof (Q.max_spec a b);
             set (m := Qmax a b) in *; clearbody m
         end.

Ltac open_tiers :=
  unfold tierAmounts, ltcgTiers, finiteThresholds;
  cbn [Thresholds.r0_to Thresholds.r15_to Js.sub Js.add Js.mul
       Math.max Math.min Result.rows Result.tax map
       LtcgRow.amount LtcgRow.tax LtcgRow.rate].

Lemma calcLtcgTax_as_tiers (s : FilingStatus) :
  exists r0_to r15_to : Q,
    r0_to <= r15_to /\
    forall total ltcg,
      calcLtcgTax total ltcg (key s) =
      ltcgTiers (finiteThresholds r0_to r15_to) total ltcg.
Proof.
  destruct (LTCG_2025_finite s) as (r0 & r15 & H & E).
  exists r0, r15. split; [exact H|]. intros total ltcg.
  unfold calcLtcgTax. now rewrite E.
Qed.

(** X7.  Gains that are zero or negative are never taxed: for every
    finite total taxable income and every filing status the whole amount
    is put in the 0 percent row, the other two rows hold 0, and the tax
    is 0. *)
Theorem calcLtcgTax_no_positive_gains
    (s : FilingStatus) (totalTaxableIncome ltcg : Q) :
  ltcg <= 0 ->
  let r := calcLtcgTax (Fin totalTaxableIncome) (Fin ltcg) (key s) in
  Forall2 jeq (tierAmounts r) [Fin ltcg; Fin 0; Fin 0] /\
  Result.tax r =j= Fin 0.
Proof.
  intros Hl. cbv zeta.
  destruct (calcLtcgTax_as_tiers s) as (r0 & r15 & _ & ->).
  open_tiers.
  split; [repeat constructor|]; cbn [jeq]; name_minmax; lra.
Qed.

Lemma calcLtcgTax_no_positive_gains_witness :
  -1000 <= 0 /\
  Result.tax (calcLtcgTax (Fin 50000) (Fin (-1000)) (key Single)) =j= Fin 0.
Proof.
  split; [discriminate|].
  apply (calcLtcgTax_no_positive_gains Single 50000 (-1000)). discriminate.
Defined.

(** X8.  The tiers fill from the bottom: with
    [room0 = max(r0_to - ordinaryTaxable, 0)] and
    [room15 = max(r15_to - max(ordinaryTaxable, r0_to), 0)], an amount
    is taxed at 15 percent only if the 0 percent tier holds exactly
    [room0], and an amount is taxed at 20 percent only if moreover the
    15 percent tier holds exactly [room15]. *)
Theorem ltcgTiers_fill_in_order (r0_to r15_to totalTaxableIncome ltcg : Q) :
  let ordinaryTaxable := totalTaxableIncome - ltcg in
  let room0 := Qmax (r0_to - ordinaryTaxable) 0 in
  let room15 := Qmax (r15_to - Qmax ordinaryTaxable r0_to) 0 in
  exists taxedAt0 taxedAt15 taxedAt20 : Q,
    tierAmounts (ltcgTiers (finiteThresholds r0_to r15_to)
                           (Fin totalTaxableIncome) (Fin ltcg)) =
      [Fin taxedAt0; Fin taxedAt15; Fin taxedAt20] /\
    (0 < taxedAt15 -> taxedAt0 == room0) /\
    (0 < taxedAt20 -> taxedAt0 == room0 /\ taxedAt15 == room15).
Proof.
  cbv zeta. open_tiers.
  eexists; eexists; eexists. split; [reflexivity|].
  name_minmax. lra.
Qed.

(** X9.  The three pure cases, for gains [>= 0] and thresholds with
    [r0_to <= r15_to], in terms of the variables the function computes:
    [ordinaryTaxable = totalTaxableIncome - ltcg],
    [room0 = max(r0_to - ordinaryTaxable, 0)] and
    [room15 = max(r15_to - max(ordinaryTaxable, r0_to), 0)].
    If the gains fit in [room0], they are all taxed at 0 percent.  If
    [ordinaryTaxable] is at least [r0_to] and the gains fit in [room15],
    they are all taxed at 15 percent.  If [ordinaryTaxable] is at least
    [r15_to], they are all taxed at 20 percent. *)
Theorem ltcgTiers_pure_cases (r0_to r15_to totalTaxableIncome ltcg : Q) :
  0 <= ltcg -> r0_to <= r15_to ->
  let r := ltcgTiers (finiteThresholds r0_to r15_to)
                     (Fin totalTaxableIncome) (Fin ltcg) in
  let ordinaryTaxable := totalTaxableIncome - ltcg in
  let room0 := Qmax (r0_to - ordinaryTaxable) 0 in
  let room15 := Qmax (r15_to - Qmax ordinaryTaxable r0_to) 0 in
  (ltcg <= room0 ->
   Forall2 jeq (tierAmounts r) [Fin ltcg; Fin 0; Fin 0] /\
   Result.tax r =j= Fin 0) /\
  (r0_to <= ordinaryTaxable -> ltcg <= room15 ->
   Forall2 jeq (tierAmounts r) [Fin 0; Fin ltcg; Fin 0] /\
   Result.tax r =j= Fin (ltcg * 0.15)) /\
  (r15_to <= ordinaryTaxable ->
   Forall2 jeq (tierAmounts r) [Fin 0; Fin 0; Fin ltcg] /\
   Result.tax r =j= Fin (ltcg * 0.20)).
Proof.
  intros Hl Hr. cbv zeta. open_tiers.
  repeat split; repeat constructor; cbn [jeq];
    repeat match goal with
           | H : _ <= _ |- _ => revert H
           end;
    name_minmax; intros; lra.
Qed.

Lemma ltcgTiers_pure_cases_witness :
  0 <= 100000 /\ 48350 <= 533400 /\
  Result.tax (ltcgTiers (finiteThresholds 48350 533400)
                        (Fin 300000) (Fin 100000))
    =j= Fin (100000 * 0.15) /\
  Result.tax (ltcgTiers (finiteThresholds 48350 533400)
                        (Fin 1100000) (Fin 500000))
    =j= Fin (500000 * 0.20).
Proof.
  split; [discriminate|split; [discriminate|]]. split.
  - destruct (ltcgTiers_pure_cases 48350 533400 300000 100000)
      as (_ & H15 & _); [discriminate|discriminate|].
    now destruct H15; [discriminate|discriminate|].
  - destruct (ltcgTiers_pure_cases 48350 533400 1100000 500000)
      as (_ & _ & H20); [discriminate|discriminate|].
    now destruct H20; [discriminate|].
Defined.





(** X12.  For finite arguments and every filing status the three
    capital-gains rows carry the rates 0, 0.15 and 0.20, the tax of each
    row is its amount times its rate, and the returned tax is the sum of
    the taxes of the rows. *)
Theorem calcLtcgTax_rows_consistent
    (s : FilingStatus) (totalTaxableIncome ltcg : Q) :
  let r := calcLtcgTax (Fin totalTaxableIncome) (Fin ltcg) (key s) in
  map LtcgRow.rate (Result.rows r) = [Fin 0.00; Fin 0.15; Fin 0.20] /\
  Forall (fun row =>
            LtcgRow.tax row =j= (LtcgRow.amount row * LtcgRow.rate row)%js)
         (Result.rows r) /\
  Result.tax r =j= sumOfTierTaxes (Result.rows r).
Proof.
  cbv zeta.
  destruct (calcLtcgTax_as_tiers s) as (r0 & r15 & _ & ->).
  unfold sumOfTierTaxes, ltcgTiers, finiteThresholds. cbn.
  split; [reflexivity|]. split.
  - repeat (apply Forall_cons || apply Forall_nil); cbn; ring.
  - ring.
Qed.

(** X13.  [calcLtcgTax] does not guard against [NaN]: gains or a total
    taxable income that are [NaN] give [NaN] in all three amounts and in
    the tax. *)
Theorem calcLtcgTax_nan (s : FilingStatus) (other : jsnum) :
  let all_nan r :=
    tierAmounts r = [NaN; NaN; NaN] /\ Result.tax r = NaN in
  all_nan (calcLtcgTax other NaN (key s)) /\
  all_nan (calcLtcgTax NaN other (key s)).
Proof.
  cbv zeta.
  destruct (calcLtcgTax_as_tiers s) as (r0 & r15 & _ & E). rewrite !E.
  destruct other; repeat split; reflexivity.
Qed.

(** ** The figures of [calculate] *)

(** The ordinary tax as a rational, with what the later statements need
    of it. *)
Lemma single_tax_facts (x : Q) :
  exists q : Q,
    Result.tax (calcOrdinaryTax (Fin x) "single") = Fin q /\
    Forall (fun row => Number_isFinite (OrdRow.taxedAmount row) = true /\
                       Number_isFinite (OrdRow.tax row) = true)
           (Result.rows (calcOrdinaryTax (Fin x) "single")) /\
    0.10 * Qmax x 0 <= q /\ q <= 0.37 * Qmax x 0.
Proof.
  rewrite calcOrdinaryTax_single.
  eexists. split; [cbn; reflexivity|].
  split; [repeat constructor|].
  destruct (Qlt_le_dec x 0) as [Hneg|Hpos].
  - rewrite (Q.max_r x 0) by lra. resolve_minmax. lra.
  - rewrite (Q.max_l x 0) by lra.
    pose proof (single_amounts_sum x Hpos) as S. cbn in S.
    repeat match goal with
           | |- context [Qmax ?u 0] =>
               lazymatch goal with
               | _ : 0 <= Qmax u 0 |- _ => fail
               | _ => pose proof (Q.le_max_r u 0)
               end
           end.
    lra.
Qed.

Lemma calcOrdinaryTax_any_string (x : jsnum) (status : string) :
  calcOrdinaryTax x status = calcOrdinaryTax x "single".
Proof.
  unfold calcOrdinaryTax, ORDINARY_BRACKETS_2025, get.
  repeat match goal with
         | |- context [if ?c then _ else _] => destruct c
         end; reflexivity.
Qed.

Lemma calcLtcgTax_any_string (status : string) :
  exists r0_to r15_to : Q,
    0 <= r0_to /\ r0_to <= r15_to /\
    forall total ltcg,
      calcLtcgTax total ltcg status =
      ltcgTiers (finiteThresholds r0_to r15_to) total ltcg.
Proof.
  unfold calcLtcgTax, LTCG_2025, get, single_ltcg, finiteThresholds.
  repeat match goal with
         | |- context [if ?c then _ else _] => destruct c
         end;
    eexists; eexists; (split; [|split; [|reflexivity]]); discriminate.
Qed.

(** The capital-gains tax as a rational. *)
Lemma tiers_tax_facts (r0_to r15_to total ltcg : Q) :
  0 <= r0_to -> r0_to <= r15_to ->
  exists q : Q,
    Result.tax (ltcgTiers (finiteThresholds r0_to r15_to)
                          (Fin total) (Fin ltcg)) = Fin q /\
    Forall (fun row => Number_isFinite (LtcgRow.amount row) = true /\
                       Number_isFinite (LtcgRow.tax row) = true)
           (Result.rows (ltcgTiers (finiteThresholds r0_to r15_to)
                                   (Fin total) (Fin ltcg))) /\
    0 <= q /\ q <= 0.20 * Qmax ltcg 0 /\
    (0 <= ltcg -> total <= r0_to -> q == 0).
Proof.
  intros H0 Hr. open_tiers.
  eexists. split; [reflexivity|]. split; [repeat constructor|].
  name_minmax. lra.
Qed.

Lemma tiers_tax_total_mono (r0_to r15_to total1 total2 ltcg : Q) :
  r0_to <= r15_to -> total1 <= total2 ->
  exists q1 q2 : Q,
    Result.tax (ltcgTiers (finiteThresholds r0_to r15_to)
                          (Fin total1) (Fin ltcg)) = Fin q1 /\
    Result.tax (ltcgTiers (finiteThresholds r0_to r15_to)
                          (Fin total2) (Fin ltcg)) = Fin q2 /\
    q1 <= q2.
Proof.
  intros Hr Ht. open_tiers.
  eexists; eexists. split; [reflexivity|]. split; [reflexivity|].
  name_minmax. lra.
Qed.

Lemma calculate_totals {V : Type} (Number : V -> jsnum)
    (form : Form.t V) (page : Page.t) :
  let c := calculate Number form page in
  Calc.totalTax c =
    (Result.tax (Calc.ordinary c) + Result.tax (Calc.capgains c))%js /\
  Calc.refund c = (Calc.withheld c - Calc.totalTax c)%js /\
  Calc.refundHint c =
    if (Calc.refund c >= Fin 0)%js then refund_hint else due_hint.
Proof.
  cbv zeta. unfold calculate. destruct (_ < _)%js; repeat split.
Qed.

(** Everything [calculate] derives, as rationals. *)
Lemma calculate_figures {V : Type} (Number : V -> jsnum)
    (form : Form.t V) (page : Page.t) :
  let c := calculate Number form page in
  exists gross withheld k401 otherDed stcg ltcg deductionVal adjustedW2
         r0_to r15_to ordinaryTax ltcgTax : Q,
    let taxableIncome := Qmax (adjustedW2 + stcg + ltcg - deductionVal) 0 in
    let taxableOrdinary := Qmax (taxableIncome - ltcg) 0 in
    (Calc.gross c = Fin gross /\ Calc.withheld c = Fin withheld /\
     Calc.k401 c = Fin k401 /\ Calc.otherDed c = Fin otherDed /\
     Calc.stcg c = Fin stcg /\ Calc.ltcg c = Fin ltcg /\
     Calc.deductionVal c = Fin deductionVal) /\
    (Calc.adjustedW2 c = Fin adjustedW2 /\
     adjustedW2 == Qmax (gross - k401 - otherDed) 0 /\
     Calc.totalIncome c = Fin (adjustedW2 + stcg + ltcg) /\
     Calc.taxableIncome c = Fin taxableIncome /\
     Calc.taxableOrdinary c = Fin taxableOrdinary) /\
    (0 <= r0_to /\ r0_to <= r15_to /\
     Calc.ordinary c = calcOrdinaryTax (Fin taxableOrdinary) "single" /\
     Calc.capgains c =
       ltcgTiers (finiteThresholds r0_to r15_to)
                 (Fin taxableIncome) (Fin ltcg)) /\
    (Result.tax (Calc.ordinary c) = Fin ordinaryTax /\
     Result.tax (Calc.capgains c) = Fin ltcgTax /\
     Calc.totalTax c = Fin (ordinaryTax + ltcgTax) /\
     Calc.refund c = Fin (withheld - (ordinaryTax + ltcgTax))).
Proof.
  intros c.
  destruct (calculate_locals Number form page)
    as (g & w & k & o & s & l & d & a &
        Hg & Hw & Hk & Ho & Hs & Hl & Hd & Ha & Ea & Hti & Htx & Hto).
  destruct (calculate_calls Number form page) as (Hord & Hcap & _ & _).
  destruct (calculate_totals Number form page) as (Htot & Href & _).
  assert (R : forall rd, In rd entries ->
                snd rd c = n Number (fst rd form))
    by (apply calculate_reads).
  pose proof (R (Form.gross, Calc.gross)) as Rg.
  pose proof (R (Form.withheld, Calc.withheld)) as Rw.
  pose proof (R (Form.k401, Calc.k401)) as Rk.
  pose proof (R (Form.otherDed, Calc.otherDed)) as Ro.
  pose proof (R (Form.stcg, Calc.stcg)) as Rs.
  pose proof (R (Form.ltcg, Calc.ltcg)) as Rl.
  cbn [fst snd] in Rg, Rw, Rk, Ro, Rs, Rl.
  assert (Rg' := Rg ltac:(cbn; tauto)). assert (Rw' := Rw ltac:(cbn; tauto)).
  assert (Rk' := Rk ltac:(cbn; tauto)). assert (Ro' := Ro ltac:(cbn; tauto)).
  assert (Rs' := Rs ltac:(cbn; tauto)). assert (Rl' := Rl ltac:(cbn; tauto)).
  clear R Rg Rw Rk Ro Rs Rl.
  rewrite Hg in Rg'. rewrite Hw in Rw'. rewrite Hk in Rk'.
  rewrite Ho in Ro'. rewrite Hs in Rs'. rewrite Hl in Rl'.
  fold c in Hd, Ha, Hti, Htx, Hto, Hord, Hcap, Htot, Href.
  rewrite Hto, calcOrdinaryTax_any_string in Hord.
  destruct (calcLtcgTax_any_string (Form.status form))
    as (r0 & r15 & H0 & Hr & Etiers).
  rewrite Htx, Rl', Etiers in Hcap.
  destruct (single_tax_facts
              (Qmax (Qmax (a + s + l - d) 0 - l) 0)) as (qo & Eqo & _).
  destruct (tiers_tax_facts r0 r15 (Qmax (a + s + l - d) 0) l H0 Hr)
    as (qc & Eqc & _).
  rewrite <- Hord in Eqo. rewrite <- Hcap in Eqc.
  exists g, w, k, o, s, l, d, a, r0, r15, qo, qc. cbv zeta.
  rewrite Href, Htot, Eqo, Eqc, Rw'. cbn [Js.add Js.sub].
  repeat split; try assumption; reflexivity.
Qed.

(** C10.  Whenever the conversion of a value is [NaN] or an infinity,
    [n] returns 0, and [calculate] treats an entry field holding such a
    value as one holding 0: the field is read as 0, and everything
    [calculate] returns (every derived figure, both breakdowns, the
    hint and the page) is what it returns when the field holds a value
    that converts to 0 instead.  No figure it derives is [NaN]. *)
Theorem n_nonfinite_is_zero {V : Type} (Number : V -> jsnum) (v : V) :
  Number v = NaN \/ Number v = PInf \/ Number v = NInf ->
  n Number v = Fin 0 /\
  (forall (form : Form.t V) (page : Page.t) rd,
     In rd entries -> fst rd form = v ->
     snd rd (calculate Number form page) = Fin 0) /\
  (forall (form form' : Form.t V) (page : Page.t),
     Form.status form = Form.status form' ->
     (forall rd, In rd entries ->
        fst rd form = fst rd form' \/
        (fst rd form = v /\ Number (fst rd form') = Fin 0)) ->
     calculate Number form page = calculate Number form' page) /\
  (forall (form : Form.t V) (page : Page.t),
     let c := calculate Number form page in
     Forall (fun a => a <> NaN)
       [Calc.adjustedW2 c; Calc.totalIncome c; Calc.taxableIncome c;
        Calc.taxableOrdinary c; Result.tax (Calc.ordinary c);
        Result.tax (Calc.capgains c); Calc.totalTax c; Calc.refund c]).
Proof.
  intros Hv.
  assert (E : n Number v = Fin 0)
    by (unfold n; destruct Hv as [->|[->| ->]]; reflexivity).
  split; [exact E|]. split; [|split].
  - intros form page rd Hin <-. now rewrite calculate_reads.
  - intros form form' page Hs Hfields.
    assert (R : forall rd, In rd entries ->
                  n Number (fst rd form) = n Number (fst rd form')).
    { intros rd Hin. destruct (Hfields rd Hin) as [->|[-> H0]];
        [reflexivity|]. rewrite E. unfold n. now rewrite H0. }
    pose proof (R (Form.gross, Calc.gross)) as Rg.
    pose proof (R (Form.withheld, Calc.withheld)) as Rw.
    pose proof (R (Form.k401, Calc.k401)) as Rk.
    pose proof (R (Form.otherDed, Calc.otherDed)) as Ro.
    pose proof (R (Form.stcg, Calc.stcg)) as Rs.
    pose proof (R (Form.ltcg, Calc.ltcg)) as Rl.
    cbn [fst snd] in Rg, Rw, Rk, Ro, Rs, Rl.
    unfold calculate.
    rewrite Hs, Rg, Rw, Rk, Ro, Rs, Rl by (cbn; tauto).
    reflexivity.
  - intros form page c.
    destruct (calculate_figures Number form page)
      as (g & w & k & o & s & l & d & a & r0 & r15 & qo & qc & _ &
          (Ha & _ & Hti & Htx & Hto) & _ & (Eqo & Eqc & Htot & Href)).
    fold c in Ha, Hti, Htx, Hto, Eqo, Eqc, Htot, Href.
    rewrite Ha, Hti, Htx, Hto, Eqo, Eqc, Htot, Href.
    repeat constructor; discriminate.
Qed.

Lemma n_nonfinite_is_zero_witness :
  (ofNumber NaN = NaN \/ ofNumber NaN = PInf \/ ofNumber NaN = NInf) /\
  n ofNumber NaN = Fin 0 /\
  calculate ofNumber example_1_unreadable blankPage =
  calculate ofNumber example_1 blankPage.
Proof.
  split; [now left|].
  destruct (n_nonfinite_is_zero ofNumber NaN) as (E & _ & Hsame & _);
    [now left|].
  split; [exact E|].
  apply Hsame; [reflexivity|].
  intros rd Hin.
  repeat (destruct Hin as [<-|Hin];
          [first [left; reflexivity | right; split; reflexivity]|]).
  destruct Hin.
Defined.

(** X14.  Whatever the fields convert to, [calculate] shows no [NaN]:
    neither the adjusted wages, the total and the taxable income, the
    total tax or the refund, nor any amount or tax of the two
    breakdowns is [NaN]. *)
Theorem calculate_shows_no_nan {V : Type} (Number : V -> jsnum)
    (form : Form.t V) (page : Page.t) :
  let c := calculate Number form page in
  Forall (fun a => a <> NaN)
    [Calc.adjustedW2 c; Calc.totalIncome c; Calc.taxableIncome c;
     Calc.totalTax c; Calc.refund c] /\
  Forall (fun row => OrdRow.taxedAmount row <> NaN /\
                     OrdRow.tax row <> NaN)
         (Result.rows (Calc.ordinary c)) /\
  Forall (fun row => LtcgRow.amount row <> NaN /\
                     LtcgRow.tax row <> NaN)
         (Result.rows (Calc.capgains c)).
Proof.
  intros c.
  assert (F : forall a, Number_isFinite a = true -> a <> NaN)
    by (intros a Ha ->; discriminate Ha).
  destruct (calculate_figures Number form page)
    as (g & w & k & o & s & l & d & a & r0 & r15 & qo & qc & _ &
        (Ha & _ & Hti & Htx & _) & (H0 & Hr & Hord & Hcap) &
        (_ & _ & Htot & Href)).
  fold c in Ha, Hti, Htx, Hord, Hcap, Htot, Href.
  rewrite Ha, Hti, Htx, Htot, Href, Hord, Hcap.
  split; [repeat constructor; discriminate|]. split.
  - destruct (single_tax_facts
                (Qmax (Qmax (a + s + l - d) 0 - l) 0)) as (? & _ & Fo & _).
    eapply Forall_impl; [|exact Fo]. intros row [? ?]. split; now apply F.
  - destruct (tiers_tax_facts r0 r15 (Qmax (a + s + l - d) 0) l H0 Hr)
      as (? & _ & Fc & _).
    eapply Forall_impl; [|exact Fc]. intros row [? ?]. split; now apply F.
Qed.

(** X15.  The total tax is never negative, and it is at most 37 percent
    of the taxable ordinary income plus 20 percent of the gains read
    (of 0 when they are negative); hence the refund figure never exceeds
    the amount withheld. *)
Theorem calculate_tax_bounds {V : Type} (Number : V -> jsnum)
    (form : Form.t V) (page : Page.t) :
  let c := calculate Number form page in
  (Fin 0 <= Calc.totalTax c)%js = true /\
  (Calc.totalTax c <=
   Fin 0.37 * Calc.taxableOrdinary c
   + Fin 0.20 * Math.max (Calc.ltcg c) (Fin 0))%js = true /\
  (Calc.refund c <= Calc.withheld c)%js = true.
Proof.
  intros c.
  destruct (calculate_figures Number form page)
    as (g & w & k & o & s & l & d & a & r0 & r15 & qo & qc &
        (_ & Hw & _ & _ & _ & Hl & _) & (_ & _ & _ & _ & Hto) &
        (H0 & Hr & Hord & Hcap) & (Eqo & Eqc & Htot & Href)).
  fold c in Hw, Hl, Hto, Hord, Hcap, Eqo, Eqc, Htot, Href.
  rewrite Htot, Href, Hto, Hl, Hw. cbn [Js.add Js.mul Math.max].
  rewrite !Js_le_Fin.
  destruct (single_tax_facts (Qmax (Qmax (a + s + l - d) 0 - l) 0))
    as (qo' & Eqo' & _ & Lo & Uo).
  destruct (tiers_tax_facts r0 r15 (Qmax (a + s + l - d) 0) l H0 Hr)
    as (qc' & Eqc' & _ & Lc & Uc & _).
  rewrite <- Hord, Eqo in Eqo'. rewrite <- Hcap, Eqc in Eqc'.
  injection Eqo' as ->. injection Eqc' as ->.
  revert Lo Uo Lc Uc. name_minmax. lra.
Qed.

(** X16.  When the gains read are not negative and the total income does
    not exceed the deduction, the taxable income is 0, no tax is due and
    the refund is the amount withheld. *)
Theorem calculate_within_deduction {V : Type} (Number : V -> jsnum)
    (form : Form.t V) (page : Page.t) :
  let c := calculate Number form page in
  (Fin 0 <= Calc.ltcg c)%js = true ->
  (Calc.totalIncome c <= Calc.deductionVal c)%js = true ->
  Calc.taxableIncome c =j= Fin 0 /\
  Calc.totalTax c =j= Fin 0 /\
  Calc.refund c =j= Calc.withheld c.
Proof.
  intros c.
  destruct (calculate_figures Number form page)
    as (g & w & k & o & s & l & d & a & r0 & r15 & qo & qc &
        (_ & Hw & _ & _ & _ & Hl & Hd) & (_ & _ & Hti & Htx & _) &
        (H0 & Hr & Hord & Hcap) & (Eqo & Eqc & Htot & Href)).
  fold c in Hw, Hl, Hd, Hti, Htx, Hord, Hcap, Eqo, Eqc, Htot, Href.
  rewrite Htot, Href, Htx, Hti, Hl, Hw, Hd. cbn [jeq].
  rewrite !Js_le_Fin. intros Hl0 Hin.
  destruct (single_tax_facts (Qmax (Qmax (a + s + l - d) 0 - l) 0))
    as (qo' & Eqo' & _ & Lo & Uo).
  destruct (tiers_tax_facts r0 r15 (Qmax (a + s + l - d) 0) l H0 Hr)
    as (qc' & Eqc' & _ & Lc & Uc & Zc).
  rewrite <- Hord, Eqo in Eqo'. rewrite <- Hcap, Eqc in Eqc'.
  injection Eqo' as ->. injection Eqc' as ->.
  revert Lo Uo Lc Uc Zc. name_minmax. lra.
Qed.

Lemma calculate_within_deduction_witness :
  let c := calculate ofNumber gains_exceed_taxable blankPage in
  Calc.totalTax c =j= Fin 0.
Proof.
  cbv zeta.
  now destruct (calculate_within_deduction ofNumber gains_exceed_taxable
                  blankPage eq_refl eq_refl) as (_ & H & _).
Defined.

(** X17.  Negative gains are not set off against other income: when the
    gains read are negative, the taxable ordinary income is the taxable
    income plus the size of the loss, the capital-gains tax is 0, and
    tax is due, also when the taxable income is 0. *)
Theorem calculate_negative_gains_taxed {V : Type} (Number : V -> jsnum)
    (form : Form.t V) (page : Page.t) :
  let c := calculate Number form page in
  (Calc.ltcg c < Fin 0)%js = true ->
  Calc.taxableOrdinary c =j= (Calc.taxableIncome c - Calc.ltcg c)%js /\
  Result.tax (Calc.capgains c) =j= Fin 0 /\
  (Fin 0 < Calc.totalTax c)%js = true.
Proof.
  intros c.
  destruct (calculate_figures Number form page)
    as (g & w & k & o & s & l & d & a & r0 & r15 & qo & qc &
        (_ & _ & _ & _ & _ & Hl & _) & (_ & _ & _ & Htx & Hto) &
        (H0 & Hr & Hord & Hcap) & (Eqo & Eqc & Htot & _)).
  fold c in Hl, Htx, Hto, Hord, Hcap, Eqo, Eqc, Htot.
  rewrite Htot, Eqc, Htx, Hto, Hl. cbn [jeq Js.sub].
  rewrite !Js_lt_Fin. intros Hneg.
  destruct (single_tax_facts (Qmax (Qmax (a + s + l - d) 0 - l) 0))
    as (qo' & Eqo' & _ & Lo & Uo).
  destruct (tiers_tax_facts r0 r15 (Qmax (a + s + l - d) 0) l H0 Hr)
    as (qc' & Eqc' & _ & Lc & Uc & _).
  rewrite <- Hord, Eqo in Eqo'. rewrite <- Hcap, Eqc in Eqc'.
  injection Eqo' as ->. injection Eqc' as ->.
  revert Lo Uo Lc Uc. name_minmax. lra.
Qed.

Lemma calculate_negative_gains_taxed_witness :
  let c := calculate ofNumber negative_gains blankPage in
  (Fin 0 < Calc.totalTax c)%js = true.
Proof.
  cbv zeta.
  now destruct (calculate_negative_gains_taxed ofNumber negative_gains
                  blankPage eq_refl) as (_ & _ & H).
Defined.

(** X18.  When the arguments of the stacker meet its precondition
    [0 <= ltcg <= taxableIncome], the amount the brackets tax and the
    gains make up the taxable income, and the total tax is at most
    37 percent of the taxable income. *)
Theorem calculate_income_split {V : Type} (Number : V -> jsnum)
    (form : Form.t V) (page : Page.t) :
  let c := calculate Number form page in
  stackerPrecondition (Calc.taxableIncome c) (Calc.ltcg c) ->
  (Calc.taxableOrdinary c + Calc.ltcg c)%js =j= Calc.taxableIncome c /\
  (Calc.totalTax c <= Fin 0.37 * Calc.taxableIncome c)%js = true.
Proof.
  intros c.
  destruct (calculate_figures Number form page)
    as (g & w & k & o & s & l & d & a & r0 & r15 & qo & qc &
        (_ & _ & _ & _ & _ & Hl & _) & (_ & _ & _ & Htx & Hto) &
        (H0 & Hr & Hord & Hcap) & (Eqo & Eqc & Htot & _)).
  fold c in Hl, Htx, Hto, Hord, Hcap, Eqo, Eqc, Htot.
  unfold stackerPrecondition.
  rewrite Htot, Htx, Hto, Hl. cbn [jeq Js.add Js.mul].
  rewrite !Js_le_Fin. intros [Hl0 Hle].
  destruct (single_tax_facts (Qmax (Qmax (a + s + l - d) 0 - l) 0))
    as (qo' & Eqo' & _ & Lo & Uo).
  destruct (tiers_tax_facts r0 r15 (Qmax (a + s + l - d) 0) l H0 Hr)
    as (qc' & Eqc' & _ & Lc & Uc & _).
  rewrite <- Hord, Eqo in Eqo'. rewrite <- Hcap, Eqc in Eqc'.
  injection Eqo' as ->. injection Eqc' as ->.
  revert Hle Lo Uo Lc Uc. name_minmax. lra.
Qed.

Lemma calculate_income_split_witness :
  let c := calculate ofNumber wages_and_gains blankPage in
  stackerPrecondition (Calc.taxableIncome c) (Calc.ltcg c) /\
  Calc.ltcg c =j= Fin 50000 /\
  Calc.taxableIncome c =j= Fin 134250 /\
  (Calc.taxableOrdinary c + Calc.ltcg c)%js =j= Calc.taxableIncome c /\
  (Calc.totalTax c <= Fin 0.37 * Calc.taxableIncome c)%js = true.
Proof.
  cbv zeta.
  assert (P : stackerPrecondition
                (Calc.taxableIncome
                   (calculate ofNumber wages_and_gains blankPage))
                (Calc.ltcg (calculate ofNumber wages_and_gains blankPage)))
    by (split; reflexivity).
  split; [exact P|].
  split; [vm_compute; reflexivity|]. split; [vm_compute; reflexivity|].
  exact (calculate_income_split ofNumber wages_and_gains blankPage P).
Defined.

Lemma setWarn_display (msg : string) (page : Page.t) :
  Page.display (setWarn msg page) =
  if (msg =? "")%string then "none" else "block".
Proof. unfold setWarn. destruct (msg =? "")%string; reflexivity. Qed.

(** X19.  What the warning box holds when [calculate] returns does not
    depend on what it held before.  For every status but single it shows
    the fallback notice, also when the deductions exceeded the gross
    salary: the deductions warning set earlier in the same call is
    replaced.  For status single it shows the deductions warning when
    the adjusted wages were negative and is hidden and empty
    otherwise. *)
Theorem calculate_warning_box {V : Type} (Number : V -> jsnum)
    (form : Form.t V) (page : Page.t) :
  let c := calculate Number form page in
  let unclamped := (Calc.gross c - Calc.k401 c - Calc.otherDed c)%js in
  let box := (Page.display (Calc.page c), Page.textContent (Calc.page c)) in
  (Form.status form <> "single" -> box = ("block", fallback_notice)) /\
  (Form.status form = "single" -> (unclamped < Fin 0)%js = true ->
   box = ("block", deductions_warning)) /\
  (Form.status form = "single" -> (unclamped < Fin 0)%js = false ->
   box = ("none", "")).
Proof.
  intros c unclamped box.
  assert (R : forall rd, In rd entries ->
                snd rd c = n Number (fst rd form))
    by (apply calculate_reads).
  assert (Eu : unclamped =
               (n Number (Form.gross form) - n Number (Form.k401 form)
                - n Number (Form.otherDed form))%js).
  { pose proof (R (Form.gross, Calc.gross)) as Rg.
    pose proof (R (Form.k401, Calc.k401)) as Rk.
    pose proof (R (Form.otherDed, Calc.otherDed)) as Ro.
    cbn [fst snd] in Rg, Rk, Ro. unfold unclamped.
    now rewrite Rg, Rk, Ro by (cbn; tauto). }
  clearbody unclamped. subst box c.
  rewrite (calculate_page Number form page). cbv zeta. rewrite <- Eu.
  clear. repeat split.
  - intros Hs. apply String.eqb_neq in Hs. rewrite Hs. cbn [negb].
    now rewrite setWarn_display, setWarn_text.
  - intros Hs Hu. rewrite Hs, Hu. cbn [String.eqb Ascii.eqb Bool.eqb negb].
    now rewrite setWarn_display, setWarn_text.
  - intros Hs Hu. rewrite Hs, Hu. cbn [String.eqb Ascii.eqb Bool.eqb negb].
    now rewrite setWarn_display, setWarn_text.
Qed.

Lemma Js_ge_Fin (a b : Q) : (Fin a >= Fin b)%js = true <-> b <= a.
Proof.
  unfold Js.ge, Js.lt. rewrite Qle_alt, <- (Qcompare_antisym a b).
  destruct (a ?= b); simpl; split; intros H; try reflexivity;
    try discriminate; try (intros E; discriminate E).
  now destruct H.
Qed.

(** X20.  The hint under the refund figure reads as a refund exactly
    when the total tax does not exceed the amount withheld, and as an
    amount due exactly when it does. *)
Theorem calculate_refund_hint {V : Type} (Number : V -> jsnum)
    (form : Form.t V) (page : Page.t) :
  let c := calculate Number form page in
  (Calc.refundHint c = refund_hint <->
   (Calc.totalTax c <= Calc.withheld c)%js = true) /\
  (Calc.refundHint c = due_hint <->
   (Calc.withheld c < Calc.totalTax c)%js = true).
Proof.
  intros c.
  destruct (calculate_figures Number form page)
    as (g & w & k & o & s & l & d & a & r0 & r15 & qo & qc &
        (_ & Hw & _) & _ & _ & (_ & _ & Htot & Href)).
  destruct (calculate_totals Number form page) as (_ & _ & Hhint).
  fold c in Hw, Htot, Href, Hhint.
  rewrite Hhint, Href, Htot, Hw. rewrite Js_le_Fin, Js_lt_Fin.
  destruct (Fin (w - (qo + qc)) >= Fin 0)%js eqn:E.
  - apply Js_ge_Fin in E.
    repeat split; intros; try reflexivity; try discriminate; lra.
  - assert (N : ~ 0 <= w - (qo + qc))
      by (intros N; apply Js_ge_Fin in N; congruence).
    repeat split; intros; try reflexivity; try discriminate; lra.
Qed.

Lemma single_tax_respects_eq (x y : Q) :
  x == y ->
  Result.tax (calcOrdinaryTax (Fin x) "single") =j=
  Result.tax (calcOrdinaryTax (Fin y) "single").
Proof.
  intros E. rewrite !calcOrdinaryTax_single. cbn [Result.tax].
  destruct (bracket_total_mono single_brackets x y
              single_brackets_finite ltac:(lra) 0 0 ltac:(lra))
    as (t1 & t2 & E1 & E2 & H12).
  destruct (bracket_total_mono single_brackets y x
              single_brackets_finite ltac:(lra) 0 0 ltac:(lra))
    as (t2' & t1' & E2' & E1' & H21).
  rewrite E2 in E2'. rewrite E1 in E1'.
  injection E2' as <-. injection E1' as <-.
  rewrite E1, E2. cbn [jeq]. lra.
Qed.

Lemma tiers_tax_respects_eq (r0_to r15_to total1 total2 ltcg : Q) :
  r0_to <= r15_to -> total1 == total2 ->
  Result.tax (ltcgTiers (finiteThresholds r0_to r15_to)
                        (Fin total1) (Fin ltcg)) =j=
  Result.tax (ltcgTiers (finiteThresholds r0_to r15_to)
                        (Fin total2) (Fin ltcg)).
Proof.
  intros Hr E.
  destruct (tiers_tax_total_mono r0_to r15_to total1 total2 ltcg
              Hr ltac:(lra)) as (q1 & q2 & E1 & E2 & H12).
  destruct (tiers_tax_total_mono r0_to r15_to total2 total1 ltcg
              Hr ltac:(lra)) as (q2' & q1' & E2' & E1' & H21).
  rewrite E2 in E2'. rewrite E1 in E1'.
  injection E2' as <-. injection E1' as <-.
  rewrite E1, E2. cbn [jeq]. lra.
Qed.

(** X21.  Short-term gains are taxed like wages: two sets of entries
    with the same status and the same long-term gains whose adjusted
    wages and short-term gains have the same sum give the same taxable
    income and the same total tax. *)
Theorem calculate_short_term_as_wages {V : Type} (Number : V -> jsnum)
    (form1 form2 : Form.t V) (page1 page2 : Page.t) :
  let c1 := calculate Number form1 page1 in
  let c2 := calculate Number form2 page2 in
  Form.status form1 = Form.status form2 ->
  Calc.ltcg c1 = Calc.ltcg c2 ->
  (Calc.adjustedW2 c1 + Calc.stcg c1)%js =j=
  (Calc.adjustedW2 c2 + Calc.stcg c2)%js ->
  Calc.taxableIncome c1 =j= Calc.taxableIncome c2 /\
  Calc.totalTax c1 =j= Calc.totalTax c2.
Proof.
  intros c1 c2 Hst.
  destruct (calculate_figures Number form1 page1)
    as (g1 & w1 & k1 & o1 & s1 & l1 & d1 & a1 & r0 & r15 & qo1 & qc1 &
        (_ & _ & _ & _ & Hs1 & Hl1 & Hd1) & (Ha1 & _ & _ & Htx1 & Hto1) &
        _ & (_ & _ & Htot1 & _)).
  destruct (calculate_figures Number form2 page2)
    as (g2 & w2 & k2 & o2 & s2 & l2 & d2 & a2 & r0' & r15' & qo2 & qc2 &
        (_ & _ & _ & _ & Hs2 & Hl2 & Hd2) & (Ha2 & _ & _ & Htx2 & Hto2) &
        _ & (_ & _ & Htot2 & _)).
  destruct (calculate_calls Number form1 page1) as (Hord1 & Hcap1 & _ & _).
  destruct (calculate_calls Number form2 page2) as (Hord2 & Hcap2 & _ & _).
  destruct (calculate_totals Number form1 page1) as (Et1 & _ & _).
  destruct (calculate_totals Number form2 page2) as (Et2 & _ & _).
  assert (Ed : Calc.deductionVal c1 = Calc.deductionVal c2).
  { unfold c1, c2, calculate. rewrite Hst.
    do 2 destruct (_ < _)%js; reflexivity. }
  fold c1 in Hs1, Hl1, Hd1, Ha1, Htx1, Hto1, Hord1, Hcap1, Et1.
  fold c2 in Hs2, Hl2, Hd2, Ha2, Htx2, Hto2, Hord2, Hcap2, Et2.
  rewrite Hd1, Hd2 in Ed. injection Ed as <-.
  rewrite Hl1, Hl2, Ha1, Ha2, Hs1, Hs2. intros El. injection El as <-.
  cbn [Js.add jeq]. intros Esum.
  assert (Etx : Qmax (a1 + s1 + l1 - d1) 0 == Qmax (a2 + s2 + l1 - d1) 0).
  { revert Esum. name_minmax. intros. lra. }
  assert (Eto : Qmax (Qmax (a1 + s1 + l1 - d1) 0 - l1) 0 ==
                Qmax (Qmax (a2 + s2 + l1 - d1) 0 - l1) 0).
  { revert Etx. name_minmax. intros. lra. }
  rewrite Htx1, Htx2. split; [exact Etx|].
  rewrite Et1, Et2, Hord1, Hord2, Hcap1, Hcap2, Hto1, Hto2, Htx1, Htx2,
          Hl1, Hl2, <- Hst.
  rewrite !(calcOrdinaryTax_any_string _ (Form.status form1)).
  destruct (calcLtcgTax_any_string (Form.status form1))
    as (q0 & q15 & _ & Hq & Etiers).
  rewrite !Etiers.
  pose proof (single_tax_respects_eq _ _ Eto) as Po.
  pose proof (tiers_tax_respects_eq q0 q15 _ _ l1 Hq Etx) as Pc.
  destruct (single_tax_facts (Qmax (Qmax (a1 + s1 + l1 - d1) 0 - l1) 0))
    as (x1 & Ex1 & _).
  destruct (single_tax_facts (Qmax (Qmax (a2 + s2 + l1 - d1) 0 - l1) 0))
    as (x2 & Ex2 & _).
  rewrite Ex1 in Po |- *. rewrite Ex2 in Po |- *.
  destruct (tiers_tax_total_mono q0 q15 _ _ l1 Hq (Qle_refl (Qmax (a1 + s1 + l1 - d1) 0)))
    as (y1 & _ & Ey1 & _ & _).
  destruct (tiers_tax_total_mono q0 q15 _ _ l1 Hq (Qle_refl (Qmax (a2 + s2 + l1 - d1) 0)))
    as (y2 & _ & Ey2 & _ & _).
  rewrite Ey1 in Pc |- *. rewrite Ey2 in Pc |- *.
  cbn [Js.add jeq] in *. lra.
Qed.

Lemma calculate_short_term_as_wages_witness :
  Calc.totalTax (calculate ofNumber example_1 blankPage) =j=
  Calc.totalTax (calculate ofNumber example_1_with_short_term blankPage).
Proof.
  assert (E : (Calc.adjustedW2 (calculate ofNumber example_1 blankPage)
               + Calc.stcg (calculate ofNumber example_1 blankPage))%js =j=
              (Calc.adjustedW2
                 (calculate ofNumber example_1_with_short_term blankPage)
               + Calc.stcg
                   (calculate ofNumber example_1_with_short_term blankPage))%js)
    by (vm_compute; reflexivity).
  now destruct (calculate_short_term_as_wages ofNumber
                  example_1 example_1_with_short_term blankPage blankPage
                  eq_refl eq_refl E).
Defined.

(** ** The two helpers *)

(** X22.  [n] always returns a finite number, and it returns the
    conversion itself whenever that is finite: negative values included,
    nothing is clamped or rounded. *)
Theorem n_always_finite {V : Type} (Number : V -> jsnum) (v : V) :
  Number_isFinite (n Number v) = true /\
  (Number_isFinite (Number v) = true -> n Number v = Number v).
Proof.
  unfold n. destruct (Number v); cbn; split; try reflexivity; discriminate.
Qed.

(** X23.  [clampNonNeg] never returns a number below 0 and clamping
    twice changes nothing more.  It keeps every number that is at least
    0, turns every number below 0 (also [-Infinity]) into 0, and lets
    [NaN], and only [NaN], through as [NaN]. *)
Theorem clampNonNeg_properties (v : jsnum) :
  (clampNonNeg v < Fin 0)%js = false /\
  clampNonNeg (clampNonNeg v) = clampNonNeg v /\
  ((Fin 0 <= v)%js = true -> clampNonNeg v = v) /\
  ((v < Fin 0)%js = true -> clampNonNeg v = Fin 0) /\
  (clampNonNeg v = NaN <-> v = NaN).
Proof.
  unfold clampNonNeg.
  destruct v as [x| | |]; cbn [Math.max Js.lt Js.le negb];
    try (repeat split; intros; try reflexivity; discriminate).
  unfold Qmax, GenericMinMax.gmax.
  destruct (x ?= 0) eqn:E; rewrite ?E; cbn [negb];
    repeat split; intros; try reflexivity; discriminate.
Qed.
